(** * sublime_plugin: plugin loader, registrar and event channels

    A shallow embedding of [backend/sublime/sublime_plugin.py]:

    - the multicast dispatcher [__Event] (subscribe with [+=], unsubscribe
      with [-=], fire by calling it);
    - the resolver [fn] and the import hook [__myfinder] with its loader
      [myloader.load_module];
    - the registration pass [reload_plugin].

    Python exceptions are values of [exn], and code that may raise lives in
    a state-and-exception monad [M].  What the interpreter and the host do
    on behalf of this file (running a plugin's source, calling an observer,
    building an instance, looking an attribute up, [sublime.register]) is
    not in the repository: it is taken as a record of oracles, [interp],
    over an opaque host state, and every theorem holds for all of them.
    A called observer may subscribe and unsubscribe, a source that runs
    may import other modules, and formatting an exception may raise:
    the oracles answer for these too. *)

From Stdlib Require Import String Ascii.
From stdpp Require Import base option list strings gmap.

Local Open Scope string_scope.
Local Open Scope list_scope.

(** ** Strings and paths *)

(** [s.split(sep)] for a one-character separator: one more piece than
    there are separators, empty pieces kept. *)
Fixpoint str_split (sep : ascii) (s : string) : list string :=
  match s with
  | EmptyString => [EmptyString]
  | String c rest =>
      if Ascii.eqb c sep then EmptyString :: str_split sep rest
      else match str_split sep rest with
           | [] => [String c EmptyString]
           | w :: ws => String c w :: ws
           end
  end.

(** [sep.join(pieces)]. *)
Fixpoint str_join (sep : string) (pieces : list string) : string :=
  match pieces with
  | [] => ""
  | [w] => w
  | w :: rest => w +:+ sep +:+ str_join sep rest
  end.

Definition str_startswith (s pre : string) : bool := String.prefix pre s.

(** [s.endswith(suf)]: some tail of [s] is [suf]. *)
Fixpoint str_endswith (s suf : string) : bool :=
  if String.eqb s suf then true
  else match s with
       | EmptyString => false
       | String _ rest => str_endswith rest suf
       end.

(** [os.path.join(a, b)] of posixpath, for two components. *)
Definition os_path_join (a b : string) : string :=
  if str_startswith b "/" then b
  else if String.eqb a "" || str_endswith a "/" then a +:+ b
  else a +:+ "/" +:+ b.

(** ** The filesystem *)

Inductive fkind := Directory | RegularFile.

(** What [stat] finds at a path, if anything. *)
Definition filesystem := string -> option fkind.

Definition os_path_exists (fs : filesystem) (f : string) : bool :=
  match fs f with Some _ => true | None => false end.

Definition os_path_isdir (fs : filesystem) (f : string) : bool :=
  match fs f with Some Directory => true | _ => false end.

(** ** The resolver [fn] *)

(** The body of [for p in sys.path] in [fn]. *)
Fixpoint fn_roots (fs : filesystem) (roots : list string) (paths : string)
  : option string :=
  match roots with
  | [] => None
  | p :: rest =>
      let f := os_path_join p paths in
      if os_path_exists fs f then Some f
      else
        let f := f +:+ ".py" in
        if os_path_exists fs f then Some f
        else fn_roots fs rest paths
  end.

Definition dotted_to_path (fullname : string) : string :=
  str_join "/" (str_split "." fullname).

Definition fn (fs : filesystem) (sys_path : list string) (fullname : string)
  : option string :=
  fn_roots fs sys_path (dotted_to_path fullname).

(** The resolver as the specification words it: the first test asks for a
    directory. *)
Fixpoint resolve_spec_roots (fs : filesystem) (roots : list string)
    (paths : string) : option string :=
  match roots with
  | [] => None
  | p :: rest =>
      let d := os_path_join p paths in
      if os_path_isdir fs d then Some d
      else if os_path_exists fs (d +:+ ".py") then Some (d +:+ ".py")
      else resolve_spec_roots fs rest paths
  end.

Definition resolve_spec (fs : filesystem) (sys_path : list string)
    (fullname : string) : option string :=
  resolve_spec_roots fs sys_path (dotted_to_path fullname).

(** ** Python values *)

Inductive exn :=
  | AttributeError | ImportError | NameError | TypeError | ValueError
  | IOError | SyntaxError
  | PluginError (code : nat).

(** An object that may end up in an observer list: its identity, its truth
    value (what [if toadd:] tests) and whether it can be called. *)
Record pyobj := PyObj {
  obj_id : nat;
  obj_truthy : bool;
  obj_callable : bool
}.

#[global] Instance pyobj_eq_dec : EqDecision pyobj.
Proof. solve_decision. Defined.

(** The arguments an event is fired with. *)
Definition args := list pyobj.

(** The classes of the taxonomy, and those a plugin defines. *)
Inductive classref :=
  | object_ | Command | ApplicationCommand | WindowCommand | TextCommand
  | EventListener
  | UserClass (n : nat).

#[global] Instance classref_eq_dec : EqDecision classref.
Proof. solve_decision. Defined.

(** A class with its method resolution order (itself first). *)
Record pyclass := PyClass {
  cls_ref : classref;
  cls_mro : list classref
}.

(** [type(v)]: [type] for a new-style class without a metaclass of its
    own, something else for every other value. *)
Inductive pytype := type_ | classobj | other_type.

#[global] Instance pytype_eq_dec : EqDecision pytype.
Proof. solve_decision. Defined.

(** A member of a module: a class (with the type of the class object), or
    any other value. *)
Inductive pyvalue :=
  | VClass (meta : pytype) (c : pyclass)
  | VOther.

Definition type_of (v : pyvalue) : pytype :=
  match v with
  | VClass meta _ => meta
  | VOther => other_type
  end.

Definition EventListener_class : pyvalue :=
  VClass type_ (PyClass EventListener [EventListener; object_]).
Definition TextCommand_class : pyvalue :=
  VClass type_ (PyClass TextCommand [TextCommand; Command; object_]).
Definition WindowCommand_class : pyvalue :=
  VClass type_ (PyClass WindowCommand [WindowCommand; Command; object_]).
Definition ApplicationCommand_class : pyvalue :=
  VClass type_
    (PyClass ApplicationCommand [ApplicationCommand; Command; object_]).

(** [issubclass(v, B)]: membership of [B] in the order of [v]; a [TypeError]
    when [v] is no class. *)
Definition issubclass (v : pyvalue) (B : classref) : exn + bool :=
  match v with
  | VClass _ c => inr (bool_decide (B ∈ cls_mro c))
  | VOther => inl TypeError
  end.

(** The host's wrappers around a command class. *)
Inductive glue :=
  | TextCommandGlue (cls : pyvalue)
  | WindowCommandGlue (cls : pyvalue)
  | ApplicationCommandGlue (cls : pyvalue).

(** A module object: [mod_path] is its [__path__], when it has one. *)
Record module := Module {
  mod_id : nat;
  mod_name : string;
  mod_path : option string;
  mod_members : list (string * pyvalue)
}.

(** ** [__Event] *)

Record Event := MkEvent { observers : list pyobj }.

Definition Event_init : Event := MkEvent [].

Definition Event_iadd (self : Event) (observer : pyobj) : Event :=
  MkEvent (observers self ++ [observer]).

(** [l.remove(x)]: drop the first element equal to [x]; [None] stands for
    the [ValueError] of a missing one. *)
Fixpoint list_remove (l : list pyobj) (x : pyobj) : option (list pyobj) :=
  match l with
  | [] => None
  | y :: rest =>
      if decide (y = x) then Some rest
      else match list_remove rest x with
           | Some rest' => Some (y :: rest')
           | None => None
           end
  end.

Definition Event_isub (self : Event) (observer : pyobj) : exn + Event :=
  match list_remove (observers self) observer with
  | Some l => inr (MkEvent l)
  | None => inl ValueError
  end.

(** ** The process state *)

(** What is printed. *)
Inductive line :=
  | LoadingPlugin (module : string)
  | SkippingRegistering (item : pyvalue) (e : exn)
  | Traceback (e : exn).

(** A journal of what was done, kept beside the state to speak about it:
    a resolution by the loader, a run of a source file, a call of an
    observer. *)
Inductive effect :=
  | Resolve (fullname : string)
  | Exec (fullname f : string)
  | Call (observer : pyobj) (a : args).

Record state {Host : Type} := State {
  sys_path : list string;
  fs : filesystem;
  sys_modules : gmap string module;
  next_id : nat;
  on_load : Event;
  on_new : Event;
  commands : list (string * glue);
  stdout : list line;
  journal : list effect;
  host : Host
}.
Arguments state : clear implicits.
Arguments State {Host}.

Section Updates.
Context {Host : Type}.
Implicit Type s : state Host.

Definition set_host (h : Host) s : state Host :=
  State (sys_path s) (fs s) (sys_modules s) (next_id s) (on_load s)
    (on_new s) (commands s) (stdout s) (journal s) h.

Definition print (l : line) s : state Host :=
  State (sys_path s) (fs s) (sys_modules s) (next_id s) (on_load s)
    (on_new s) (commands s) (stdout s ++ [l]) (journal s) (host s).

Definition record (e : effect) s : state Host :=
  State (sys_path s) (fs s) (sys_modules s) (next_id s) (on_load s)
    (on_new s) (commands s) (stdout s) (journal s ++ [e]) (host s).

(** [sys.modules[name] = m] for a module object just allocated. *)
Definition cache_module (name : string) (m : module) s : state Host :=
  State (sys_path s) (fs s) (<[name := m]> (sys_modules s))
    (S (next_id s)) (on_load s) (on_new s) (commands s) (stdout s)
    (journal s) (host s).

Definition set_on_load (e : Event) s : state Host :=
  State (sys_path s) (fs s) (sys_modules s) (next_id s) e
    (on_new s) (commands s) (stdout s) (journal s) (host s).

Definition set_on_new (e : Event) s : state Host :=
  State (sys_path s) (fs s) (sys_modules s) (next_id s) (on_load s)
    e (commands s) (stdout s) (journal s) (host s).

(** The files change under the process. *)
Definition set_fs (files : filesystem) s : state Host :=
  State (sys_path s) files (sys_modules s) (next_id s) (on_load s)
    (on_new s) (commands s) (stdout s) (journal s) (host s).

Definition add_command (name : string) (g : glue) s : state Host :=
  State (sys_path s) (fs s) (sys_modules s) (next_id s) (on_load s)
    (on_new s) (commands s ++ [(name, g)]) (stdout s) (journal s)
    (host s).

(** [del sys.modules[name]]. *)
Definition uncache_module (name : string) s : state Host :=
  State (sys_path s) (fs s) (delete name (sys_modules s)) (next_id s)
    (on_load s) (on_new s) (commands s) (stdout s) (journal s) (host s).
End Updates.

(** The two channels of the module, [on_load] and [on_new], as the
    objects they are: a channel is read from the state each time it is
    used. *)
Inductive channel := ch_on_load | ch_on_new.

Definition get_channel {Host : Type} (c : channel) (s : state Host) : Event :=
  match c with
  | ch_on_load => on_load s
  | ch_on_new => on_new s
  end.

Definition set_channel {Host : Type} (c : channel) (e : Event)
    (s : state Host) : state Host :=
  match c with
  | ch_on_load => set_on_load e s
  | ch_on_new => set_on_new e s
  end.

(** [c += observer] on a channel of the module. *)
Definition subscribe {Host : Type} (c : channel) (observer : pyobj)
    (s : state Host) : state Host :=
  set_channel c (Event_iadd (get_channel c s) observer) s.

(** ** Computations that may raise *)

Inductive result (A : Type) :=
  | Ok (a : A)
  | Raise (e : exn).
Arguments Ok {A}.
Arguments Raise {A}.

Definition M (Host A : Type) : Type := state Host -> result A * state Host.

Section Monad.
Context {Host : Type}.

Definition ret {A} (a : A) : M Host A := fun s => (Ok a, s).

Definition raise {A} (e : exn) : M Host A := fun s => (Raise e, s).

Definition bind {A B} (c : M Host A) (k : A -> M Host B) : M Host B :=
  fun s =>
    match c s with
    | (Ok a, s') => k a s'
    | (Raise e, s') => (Raise e, s')
    end.

(** [try: body / except: handler] with a bare [except]. *)
Definition try_except {A} (body : M Host A) (handler : exn -> M Host A)
  : M Host A :=
  fun s =>
    match body s with
    | (Ok a, s') => (Ok a, s')
    | (Raise e, s') => handler e s'
    end.

(** A statement that only changes the state. *)
Definition modify (f : state Host -> state Host) : M Host unit :=
  fun s => (Ok tt, f s).

Definition of_sum {A} (r : exn + A) : M Host A :=
  match r with
  | inl e => raise e
  | inr a => ret a
  end.
End Monad.

Declare Scope py_scope.
Delimit Scope py_scope with py.
Notation "'let!' x ':=' c 'in' k" := (bind c (fun x => k))
  (at level 10, x name, c at level 100, k at level 200) : py_scope.
Notation "c '>>!' k" := (bind c (fun _ => k))
  (at level 90, right associativity) : py_scope.
Local Open Scope py_scope.

(** ** The interpreter and the host *)

(** A module imported by a running source: its name, its [__path__] and
    its members. *)
Definition imported : Type :=
  string * option string * list (string * pyvalue).

(** The result of looking an attribute up on an instance. *)
Inductive attr_result :=
  | AttrMissing
  | AttrRaises (e : exn)
  | AttrValue (v : pyobj).

(** What the repository's code asks of the interpreter and of the host:
    - [call_object o a]: calling the object [o] with the arguments [a];
    - [exec_source fullname f]: running the source file [f] as module
      [fullname], giving the members of the module or the exception
      raised at module scope;
    - [construct c]: the call [c()] of a class;
    - [lookup_attr inst name]: the attribute [name] of [inst];
    - [host_register name g]: [sublime.register(name, g)], which may fail;
    - [import_module name]: [importlib.import_module(name)], whatever
      the import machinery does with the hooks installed;
    - [call_rewires o a]: what the call of [o] makes of the two channels
      of the module, given as the pair of [on_load] and [on_new]: an
      observer may subscribe and unsubscribe, on the channel that is
      calling it as on the other;
    - [source_imports fullname f]: the modules the source file imports
      while it runs, in order, each with its [__path__] and members;
      they are cached as they are imported, whether or not the file
      goes on to raise;
    - [str_raises v e]: formatting the class [v] and the exception [e]
      with [%s], which runs the [__str__] of the exception: the
      exception this raises, if any.

    A constructor, an attribute lookup and [sublime.register] act on the
    host state only.  [print] of a string and [traceback.print_exc]
    always succeed. *)
Record interp (Host : Type) := Interp {
  call_object : pyobj -> args -> Host -> Host * option exn;
  exec_source : string -> string -> Host ->
                Host * (exn + list (string * pyvalue));
  construct : pyclass -> Host -> Host * (exn + pyobj);
  lookup_attr : pyobj -> string -> Host -> Host * attr_result;
  host_register : string -> glue -> Host -> Host * option exn;
  import_module : string -> M Host module;
  call_rewires : pyobj -> args -> Host -> Event * Event -> Event * Event;
  source_imports : string -> string -> Host -> list imported;
  str_raises : pyvalue -> exn -> Host -> Host * option exn
}.
Arguments call_rewires {Host}.
Arguments source_imports {Host}.
Arguments str_raises {Host}.
Arguments call_object {Host}.
Arguments exec_source {Host}.
Arguments construct {Host}.
Arguments lookup_attr {Host}.
Arguments host_register {Host}.
Arguments import_module {Host}.

Definition py_None : pyobj := PyObj 0 false false.

Section Program.
Context {Host : Type} (W : interp Host).

(** *** Firing an event *)

(** The call of one observer with the arguments of the event; calling
    what cannot be called is a [TypeError].  The call may leave the
    channels of the module changed, also when it raises. *)
Definition invoke (observer : pyobj) (a : args) : M Host unit :=
  fun s =>
    let s := record (Call observer a) s in
    if obj_callable observer then
      let chans :=
        call_rewires W observer a (host s) (on_load s, on_new s) in
      let s' := set_on_new (snd chans) (set_on_load (fst chans) s) in
      match call_object W observer a (host s) with
      | (h, None) => (Ok tt, set_host h s')
      | (h, Some e) => (Raise e, set_host h s')
      end
    else (Raise TypeError, s).

Definition traceback_print_exc (e : exn) : M Host unit :=
  modify (print (Traceback e)).

(** The loop of [__Event.__call__] from position [i] on.  A [for] over a
    list reads the list anew at each turn, by position: an observer that
    was removed in the meantime shifts the ones after it, and one that
    was added is reached in the same firing.  The loop need not end;
    [fuel] bounds the turns, and [None] says it ran out. *)
Fixpoint Event_call_from (fuel : nat) (c : channel) (i : nat) (a : args)
    (s : state Host) : option (result unit * state Host) :=
  match observers (get_channel c s) !! i with
  | None => Some (Ok tt, s)
  | Some observer =>
      match fuel with
      | 0 => None
      | S fuel' =>
          match try_except (invoke observer a) traceback_print_exc s with
          | (Ok _, s') => Event_call_from fuel' c (S i) a s'
          | (Raise e, s') => Some (Raise e, s')
          end
      end
  end.

(** [__Event.__call__] on a channel of the module. *)
Definition Event_call (fuel : nat) (c : channel) (a : args)
    (s : state Host) : option (result unit * state Host) :=
  Event_call_from fuel c 0 a s.

(** *** The import hook *)

(** [imp.new_module(fullname)] with [__path__] set to [f]: a module whose
    members are [__doc__], [__name__], [__package__] and [__path__]. *)
Definition new_module (id : nat) (fullname f : string) : module :=
  Module id fullname (Some f)
    [("__doc__", VOther); ("__name__", VOther); ("__package__", VOther);
     ("__path__", VOther)].

(** [sys.modules] after the imports of a running source: each module
    that is not cached yet gets a new object under its name. *)
Fixpoint cache_imports (imports : list imported) (s : state Host)
  : state Host :=
  match imports with
  | [] => s
  | (name, path, members) :: rest =>
      cache_imports rest
        (match sys_modules s !! name with
         | Some _ => s
         | None => cache_module name (Module (next_id s) name path members) s
         end)
  end.

(** [imp.load_source(fullname, f)]: the module object is made and put in
    [sys.modules], then the file is run, caching what it imports; when
    the file raises, the module is taken out of [sys.modules] again and
    the exception goes on; otherwise the module is returned. *)
Definition load_source (fullname f : string) : M Host module :=
  fun s =>
    let s := record (Exec fullname f) s in
    match exec_source W fullname f (host s) with
    | (h, r) =>
        let m := Module (next_id s) fullname None
                   (match r with inr members => members | inl _ => [] end) in
        let s' := cache_imports (source_imports W fullname f (host s))
                    (cache_module fullname m (set_host h s)) in
        match r with
        | inl e => (Raise e, uncache_module fullname s')
        | inr _ => (Ok m, s')
        end
    end.

(** [myloader.load_module]. *)
Definition load_module (fullname : string) : M Host module :=
  fun s =>
    match sys_modules s !! fullname with
    | Some m => (Ok m, s)
    | None =>
        let s := record (Resolve fullname) s in
        match fn (fs s) (sys_path s) fullname with
        | None => (Raise AttributeError, s)
        | Some f =>
            if negb (str_endswith f ".py") then
              let m := new_module (next_id s) fullname f in
              (Ok m, cache_module fullname m s)
            else load_source fullname f s
        end
    end.

Inductive loader := myloader.

(** [__myfinder.find_module]: a loader when [fn] finds something, [None]
    (falling off the end) otherwise. *)
Definition find_module (fullname : string) (s : state Host) : option loader :=
  match fn (fs s) (sys_path s) fullname with
  | Some _ => Some myloader
  | None => None
  end.

(** *** Registration *)

(** The two module-level events, by the names [eval] is given. *)
Definition eval_iadd (listname : string) (toadd : pyobj) : M Host unit :=
  if String.eqb listname "on_load" then
    modify (fun s => set_on_load (Event_iadd (on_load s) toadd) s)
  else if String.eqb listname "on_new" then
    modify (fun s => set_on_new (Event_iadd (on_new s) toadd) s)
  else raise NameError.

(** [getattr(inst, listname, None)]. *)
Definition getattr_or_None (inst : pyobj) (listname : string)
  : M Host pyobj :=
  fun s =>
    match lookup_attr W inst listname (host s) with
    | (h, AttrMissing) => (Ok py_None, set_host h s)
    | (h, AttrRaises e) => (Raise e, set_host h s)
    | (h, AttrValue v) => (Ok v, set_host h s)
    end.

(** The local function [add] of [reload_plugin]. *)
Definition add (inst : pyobj) (listname : string) : M Host unit :=
  let! toadd := getattr_or_None inst listname in
  if obj_truthy toadd then eval_iadd listname toadd
  else ret tt.

(** [item[1]()]. *)
Definition instantiate (v : pyvalue) : M Host pyobj :=
  fun s =>
    match v with
    | VClass _ c =>
        match construct W c (host s) with
        | (h, inl e) => (Raise e, set_host h s)
        | (h, inr inst) => (Ok inst, set_host h s)
        end
    | VOther => (Raise TypeError, s)
    end.

(** [sublime.register(name, g)]. *)
Definition sublime_register (name : string) (g : glue) : M Host unit :=
  fun s =>
    match host_register W name g (host s) with
    | (h, None) => (Ok tt, add_command name g (set_host h s))
    | (h, Some e) => (Raise e, set_host h s)
    end.

(** The body of the inner [try] of [reload_plugin], for one member. *)
Definition register_item (item : string * pyvalue) : M Host unit :=
  let! is_listener := of_sum (issubclass (snd item) EventListener) in
  if is_listener : bool then
    let! inst := instantiate (snd item) in
    add inst "on_load" >>! add inst "on_new"
  else
    let! is_text := of_sum (issubclass (snd item) TextCommand) in
    if is_text : bool then
      sublime_register (fst item) (TextCommandGlue (snd item))
    else
      let! is_window := of_sum (issubclass (snd item) WindowCommand) in
      if is_window : bool then
        sublime_register (fst item) (WindowCommandGlue (snd item))
      else
        let! is_app :=
          of_sum (issubclass (snd item) ApplicationCommand) in
        if is_app : bool then
          sublime_register (fst item) (ApplicationCommandGlue (snd item))
        else ret tt.

(** The handler of the inner [try]: the line it prints is made with
    [%s] of the class and of the exception, and making it can raise. *)
Definition report_skipped (item : string * pyvalue) (e : exn)
  : M Host unit :=
  fun s =>
    match str_raises W (snd item) e (host s) with
    | (h, None) =>
        (Ok tt, print (SkippingRegistering (snd item) e) (set_host h s))
    | (h, Some e') => (Raise e', set_host h s)
    end.

(** One turn of [for item in inspect.getmembers(module)]. *)
Definition process_item (item : string * pyvalue) : M Host unit :=
  if decide (type_of EventListener_class <> type_of (snd item)) then ret tt
  else try_except (register_item item) (report_skipped item).

Fixpoint process_items (items : list (string * pyvalue)) : M Host unit :=
  match items with
  | [] => ret tt
  | item :: rest => process_item item >>! process_items rest
  end.

(** [inspect.getmembers(module)]. *)
Definition getmembers (m : module) : list (string * pyvalue) :=
  mod_members m.

(** The body of the outer [try] of [reload_plugin]. *)
Definition load_and_register (name : string) : M Host unit :=
  let! m := import_module W name in
  process_items (getmembers m).

Definition reload_plugin (name : string) : M Host unit :=
  modify (print (LoadingPlugin name))
  >>! try_except (load_and_register name) traceback_print_exc.

(** The import machinery for a plain (undotted) name when only the hook
    of this file answers: the cache, then [find_module], then the loader
    it returned; an [ImportError] when the hook declines. *)
Definition hook_import (fullname : string) : M Host module :=
  fun s =>
    match sys_modules s !! fullname with
    | Some m => (Ok m, s)
    | None =>
        match find_module fullname s with
        | Some myloader => load_module fullname s
        | None => (Raise ImportError, s)
        end
    end.

End Program.

(** ** Concrete worlds *)

(** A plugin directory with a package [foo] holding [bar.py]. *)
Definition plugins_fs : filesystem := fun f =>
  if String.eqb f "/plugins/foo" then Some Directory
  else if String.eqb f "/plugins/foo/bar.py" then Some RegularFile
  else None.

(** A plugin directory where [foo] is a regular file without extension. *)
Definition flat_fs : filesystem := fun f =>
  if String.eqb f "/plugins/foo" then Some RegularFile else None.

(** Three observers: two that can be called and a string. *)
Definition obs1 : pyobj := PyObj 1 true true.
Definition obs2 : pyobj := PyObj 2 true true.
Definition a_string : pyobj := PyObj 3 true false.

(** An interpreter without host state where calling [obs1] raises and
    nothing else does; no source file runs, no class can be built. *)
Definition quiet_interp : interp unit :=
  Interp unit
    (fun o _ h => (h, if decide (o = obs1) then Some (PluginError 1) else None))
    (fun _ _ h => (h, inl IOError))
    (fun _ h => (h, inl TypeError))
    (fun _ _ h => (h, AttrMissing))
    (fun _ _ h => (h, None))
    (fun _ => raise ImportError)
    (fun _ _ _ chans => chans)
    (fun _ _ _ => [])
    (fun _ _ h => (h, None)).

Definition empty_state (roots : list string) (files : filesystem)
  : state unit :=
  State roots files ∅ 1 Event_init Event_init [] [] [] tt.

(** A plugin directory for the loader and the registrar: a plugin
    [hello.py], a plugin [broken.py] that fails when run, a directory that
    happens to be called [pkg.py], and a package directory [foo]. *)
Definition site_fs : filesystem := fun f =>
  if String.eqb f "/plugins/hello.py" then Some RegularFile
  else if String.eqb f "/plugins/broken.py" then Some RegularFile
  else if String.eqb f "/plugins/pkg.py" then Some Directory
  else if String.eqb f "/plugins/foo" then Some Directory
  else None.

(** The classes of [hello.py]. *)
Definition Both_class : pyvalue :=
  VClass type_
    (PyClass (UserClass 1)
       [UserClass 1; EventListener; TextCommand; Command; object_]).
Definition Failing_class : pyvalue :=
  VClass type_ (PyClass (UserClass 2) [UserClass 2; EventListener; object_]).
Definition OnNewOnly_class : pyvalue :=
  VClass type_ (PyClass (UserClass 3) [UserClass 3; EventListener; object_]).
Definition Label_class : pyvalue :=
  VClass type_ (PyClass (UserClass 4) [UserClass 4; EventListener; object_]).
Definition Hello_class : pyvalue :=
  VClass type_
    (PyClass (UserClass 5) [UserClass 5; TextCommand; Command; object_]).
Definition Win_class : pyvalue :=
  VClass type_
    (PyClass (UserClass 6) [UserClass 6; WindowCommand; Command; object_]).
Definition App_class : pyvalue :=
  VClass type_
    (PyClass (UserClass 7) [UserClass 7; ApplicationCommand; Command; object_]).
Definition OldStyle_class : pyvalue :=
  VClass classobj (PyClass (UserClass 8) [UserClass 8]).

(** The members of [hello.py], in the order of [inspect.getmembers]. *)
Definition hello_members : list (string * pyvalue) :=
  [("App", App_class); ("Failing", Failing_class); ("Hello", Hello_class);
   ("OldStyle", OldStyle_class); ("OnNewOnly", OnNewOnly_class);
   ("Win", Win_class); ("__name__", VOther)].

(** The bound method [on_new] of the instance of [OnNewOnly]. *)
Definition on_new_method : pyobj := PyObj 203 true true.

(** An interpreter for that directory.  Calling [obs1] raises; [hello.py]
    runs and [broken.py] does not; building an instance of class [n] gives
    object [100 + n], except for [Failing], whose constructor raises; the
    instance of [OnNewOnly] has the method [on_new] only, the one of
    [Label] has a string for [on_load]; the host accepts every command. *)
Definition site_base : interp unit :=
  Interp unit
    (fun o _ h => (h, if decide (o = obs1) then Some (PluginError 1) else None))
    (fun _ f h =>
       (h, if String.eqb f "/plugins/hello.py" then inr hello_members
           else if String.eqb f "/plugins/broken.py" then inl SyntaxError
           else inl IOError))
    (fun c h =>
       (h, match cls_ref c with
           | UserClass 2 => inl (PluginError 2)
           | UserClass n => inr (PyObj (100 + n) true false)
           | _ => inr (PyObj 100 true false)
           end))
    (fun inst name h =>
       (h, if decide (inst = PyObj 103 true false) then
             if String.eqb name "on_new" then AttrValue on_new_method
             else AttrMissing
           else if decide (inst = PyObj 104 true false) then
             if String.eqb name "on_load" then AttrValue a_string
             else AttrMissing
           else AttrMissing))
    (fun _ _ h => (h, None))
    (fun _ => raise ImportError)
    (fun _ _ _ chans => chans)
    (fun _ _ _ => [])
    (fun _ _ h => (h, None)).

Definition site_interp : interp unit :=
  Interp unit (call_object site_base) (exec_source site_base)
    (construct site_base) (lookup_attr site_base)
    (host_register site_base) (hook_import site_base)
    (call_rewires site_base) (source_imports site_base)
    (str_raises site_base).

Definition site_state : state unit := empty_state ["/plugins"] site_fs.

(** An observer that unsubscribes itself from both channels when it is
    called. *)
Definition leaver : pyobj := PyObj 11 true true.

(** The channel without the first subscription of [o], if it has one. *)
Definition without (o : pyobj) (e : Event) : Event :=
  match Event_isub e o with
  | inr e' => e'
  | inl _ => e
  end.

(** An interpreter whose host state is the list of the objects that were
    really called, in order.  Calling [obs1] raises; calling [leaver]
    takes it off the channels; classes and instances are those of
    [site_base]. *)
Definition logging_interp : interp (list pyobj) :=
  Interp (list pyobj)
    (fun o _ h =>
       (h ++ [o], if decide (o = obs1) then Some (PluginError 1) else None))
    (fun _ _ h => (h, inl IOError))
    (fun c h => (h, snd (construct site_base c tt)))
    (fun inst name h => (h, snd (lookup_attr site_base inst name tt)))
    (fun _ _ h => (h, None))
    (fun _ => raise ImportError)
    (fun o _ _ chans =>
       if decide (o = leaver)
       then (without leaver (fst chans), without leaver (snd chans))
       else chans)
    (fun _ _ _ => [])
    (fun _ _ h => (h, None)).

Definition logging_state (loaded created : list pyobj)
  : state (list pyobj) :=
  State [] flat_fs ∅ 1 (MkEvent loaded) (MkEvent created) [] [] [] [].

(** The interpreter of [site_base] where the exception of the
    constructor of [Failing] cannot be formatted: its [__str__] raises. *)
Definition unprintable_interp : interp unit :=
  Interp unit (call_object site_base) (exec_source site_base)
    (construct site_base) (lookup_attr site_base)
    (host_register site_base) (hook_import site_base)
    (call_rewires site_base) (source_imports site_base)
    (fun _ e h =>
       (h, match e with
           | PluginError 2 => Some ValueError
           | _ => None
           end)).

(** A plugin directory with [hello.py] and a plugin [importer.py] that
    imports [hello] and then raises. *)
Definition nested_fs : filesystem := fun f =>
  if String.eqb f "/plugins/hello.py" then Some RegularFile
  else if String.eqb f "/plugins/importer.py" then Some RegularFile
  else None.

Definition nested_interp : interp unit :=
  Interp unit (call_object site_base)
    (fun _ f h =>
       (h, if String.eqb f "/plugins/hello.py" then inr hello_members
           else if String.eqb f "/plugins/importer.py"
                then inl (PluginError 4)
                else inl IOError))
    (construct site_base) (lookup_attr site_base)
    (host_register site_base) (hook_import site_base)
    (call_rewires site_base)
    (fun _ f _ =>
       if String.eqb f "/plugins/importer.py"
       then [("hello", None, hello_members)]
       else [])
    (str_raises site_base).

Definition nested_state : state unit := empty_state ["/plugins"] nested_fs.

(** ** Vocabulary of the statements *)

(** Neither form of the name is present under root [p]. *)
Definition misses (fs : filesystem) (paths p : string) : Prop :=
  os_path_exists fs (os_path_join p paths) = false
  /\ os_path_exists fs (os_path_join p paths +:+ ".py") = false.

(** Root [p] answers with [f]: the bare path when it exists, else the path
    with the extension when that exists. *)
Definition hits (fs : filesystem) (paths p f : string) : Prop :=
  (os_path_exists fs (os_path_join p paths) = true
   /\ f = os_path_join p paths)
  \/ (os_path_exists fs (os_path_join p paths) = false
      /\ os_path_exists fs (os_path_join p paths +:+ ".py") = true
      /\ f = os_path_join p paths +:+ ".py").

(** The kinds of extension of the specification, and its classification:
    the first kind, in the fixed order, whose base class the type
    derives from. *)
Inductive ExtensionKind :=
  | KEventListener | KTextCommand | KWindowCommand | KApplicationCommand.

Definition kind_base (k : ExtensionKind) : classref :=
  match k with
  | KEventListener => EventListener
  | KTextCommand => TextCommand
  | KWindowCommand => WindowCommand
  | KApplicationCommand => ApplicationCommand
  end.

Definition taxonomy_order : list ExtensionKind :=
  [KEventListener; KTextCommand; KWindowCommand; KApplicationCommand].

Definition classify (c : pyclass) : option ExtensionKind :=
  List.find (fun k => bool_decide (kind_base k ∈ cls_mro c)) taxonomy_order.

(** The wrapper a command kind is registered with. *)
Definition kind_glue (k : ExtensionKind) (v : pyvalue) : option glue :=
  match k with
  | KEventListener => None
  | KTextCommand => Some (TextCommandGlue v)
  | KWindowCommand => Some (WindowCommandGlue v)
  | KApplicationCommand => Some (ApplicationCommandGlue v)
  end.

(** What a hook lookup contributes to its channel: the value found, when
    it is true in a condition. *)
Definition wired (r : attr_result) : list pyobj :=
  match r with
  | AttrValue v => if obj_truthy v then [v] else []
  | AttrMissing | AttrRaises _ => []
  end.

(** What the outer [try] of [reload_plugin] leaves of an outcome of its
    body: the state reached, with the traceback when the body raised. *)
Definition after_outer {Host : Type} (r : result unit * state Host)
  : state Host :=
  match r with
  | (Ok _, t) => t
  | (Raise e, t) => print (Traceback e) t
  end.

(** Calling the observers of a fixed list one after the other, each call
    guarded as in [__call__]: what a firing comes to when the list does
    not change under it. *)
Fixpoint call_in_turn {Host : Type} (W : interp Host) (obs : list pyobj)
    (a : args) : M Host unit :=
  match obs with
  | [] => ret tt
  | observer :: rest =>
      try_except (invoke W observer a) (traceback_print_exc (Host := Host))
      >>! call_in_turn W rest a
  end.

(** The calls themselves, on the host: the host after the observers of
    the list have run in order, each from where the one before left it,
    and the tracebacks of those that raised. *)
Fixpoint run_observers {Host : Type} (W : interp Host) (obs : list pyobj)
    (a : args) (h : Host) : Host * list line :=
  match obs with
  | [] => (h, [])
  | observer :: rest =>
      if obj_callable observer then
        match call_object W observer a h with
        | (h', None) => run_observers W rest a h'
        | (h', Some e) =>
            (fst (run_observers W rest a h'),
             Traceback e :: snd (run_observers W rest a h'))
        end
      else
        (fst (run_observers W rest a h),
         Traceback TypeError :: snd (run_observers W rest a h))
  end.

(** The names of the modules a source imports. *)
Definition import_names (imports : list imported) : list string :=
  map (fun i => fst (fst i)) imports.

(** [c += o1; ...; c += on]. *)
Definition subscribe_all {Host : Type} (c : channel) (os : list pyobj)
    (s : state Host) : state Host :=
  fold_left (fun t o => subscribe c o t) os s.

(** The call of [o] leaves both channels as they are. *)
Definition leaves_channels {Host : Type} (W : interp Host) (o : pyobj)
    (a : args) : Prop :=
  forall (h : Host) (chans : Event * Event),
    call_rewires W o a h chans = chans.

(** The branch of [reload_plugin] for a listener class, on its own. *)
Definition wire_listener {Host : Type} (W : interp Host) (v : pyvalue)
  : M Host unit :=
  let! inst := instantiate W v in
  add W inst "on_load" >>! add W inst "on_new".

(** The characters of a string, and strings without a dot. *)
Definition chars (s : string) : list ascii := list_ascii_of_string s.

Definition dotless (s : string) : Prop := "."%char ∉ chars s.

(** The dotted name with every dot turned into the path separator. *)
Fixpoint replace_dots (s : string) : string :=
  match s with
  | EmptyString => EmptyString
  | String c rest =>
      String (if Ascii.eqb c "." then "/"%char else c) (replace_dots rest)
  end.


(** Nothing that was registered or printed is lost from [s] to [s']. *)
Definition grows {Host : Type} (s s' : state Host) : Prop :=
  commands s `prefix_of` commands s'
  /\ observers (on_load s) `prefix_of` observers (on_load s')
  /\ observers (on_new s) `prefix_of` observers (on_new s')
  /\ stdout s `prefix_of` stdout s'.

(** A listener class whose instance has a method [on_load] and a property
    [on_new] that raises when it is read. *)
Definition Flaky_class : pyvalue :=
  VClass type_ (PyClass (UserClass 9) [UserClass 9; EventListener; object_]).

Definition on_load_method : pyobj := PyObj 209 true true.

(** A listener class the other way round: its instance has a property
    [on_load] that raises when it is read, and a method [on_new]. *)
Definition Moody_class : pyvalue :=
  VClass type_
    (PyClass (UserClass 10) [UserClass 10; EventListener; object_]).

Definition flaky_interp : interp unit :=
  Interp unit (call_object site_base) (exec_source site_base)
    (construct site_base)
    (fun inst name h =>
       (h, if decide (inst = PyObj 109 true false) then
             if String.eqb name "on_load" then AttrValue on_load_method
             else AttrRaises (PluginError 9)
           else if decide (inst = PyObj 110 true false) then
             if String.eqb name "on_load" then AttrRaises (PluginError 10)
             else AttrValue on_new_method
           else AttrMissing))
    (host_register site_base) (hook_import site_base)
    (call_rewires site_base) (source_imports site_base)
    (str_raises site_base).

(** * Properties *)

Example split_ex : str_split "." "foo.bar" = ["foo"; "bar"].
Proof. reflexivity. Qed.

Example split_empty_ex : str_split "." "" = [""].
Proof. reflexivity. Qed.

Example dotted_ex : dotted_to_path "foo.bar.baz" = "foo/bar/baz".
Proof. reflexivity. Qed.

Example join_ex :
  os_path_join "/plugins" "foo/bar" = "/plugins/foo/bar"
  /\ os_path_join "/plugins/" "foo" = "/plugins/foo"
  /\ os_path_join "" "foo" = "foo"
  /\ os_path_join "/plugins" "/foo" = "/foo".
Proof. repeat split; reflexivity. Qed.

Example endswith_ex :
  str_endswith "/plugins/foo.py" ".py" = true
  /\ str_endswith "/plugins/foo" ".py" = false
  /\ str_endswith "py" ".py" = false.
Proof. repeat split; reflexivity. Qed.

(** ** The resolver *)

Lemma fn_roots_None fs roots paths :
  fn_roots fs roots paths = None <-> Forall (misses fs paths) roots.
Proof.
  induction roots as [|p rest IH]; simpl.
  - split; [constructor | reflexivity].
  - destruct (os_path_exists fs (os_path_join p paths)) eqn:E1.
    + split; [discriminate|]. intros HF. inversion HF as [|? ? [Hm _] _]; subst.
      congruence.
    + destruct (os_path_exists fs (os_path_join p paths +:+ ".py")) eqn:E2.
      * split; [discriminate|]. intros HF.
        inversion HF as [|? ? [_ Hm] _]; subst. congruence.
      * rewrite IH. split.
        -- intros HF. constructor; [split; assumption | assumption].
        -- intros HF. inversion HF; assumption.
Qed.

Lemma fn_roots_Some fs roots paths f :
  fn_roots fs roots paths = Some f <->
  exists (pre : list string) (p : string) (post : list string),
    roots = (pre ++ p :: post)%list
    /\ Forall (misses fs paths) pre
    /\ hits fs paths p f.
Proof.
  revert f. induction roots as [|p rest IH]; intros f; simpl.
  - split; [discriminate|]. intros (pre & q & post & Heq & _).
    destruct pre; discriminate.
  - destruct (os_path_exists fs (os_path_join p paths)) eqn:E1.
    + split.
      * intros [= <-]. exists [], p, rest. repeat split; [constructor|].
        left. split; [assumption | reflexivity].
      * intros (pre & q & post & Heq & Hpre & Hhit).
        destruct pre as [|p' pre]; simpl in Heq; injection Heq as -> Hrest.
        -- destruct Hhit as [[_ ->] | [Hno _]]; [reflexivity | congruence].
        -- inversion Hpre as [|? ? [Hm _] _]; subst. congruence.
    + destruct (os_path_exists fs (os_path_join p paths +:+ ".py")) eqn:E2.
      * split.
        -- intros [= <-]. exists [], p, rest. repeat split; [constructor|].
           right. repeat split; assumption || reflexivity.
        -- intros (pre & q & post & Heq & Hpre & Hhit).
           destruct pre as [|p' pre]; simpl in Heq; injection Heq as -> Hrest.
           ++ destruct Hhit as [[Hyes _] | (_ & _ & ->)];
                [congruence | reflexivity].
           ++ inversion Hpre as [|? ? [_ Hm] _]; subst. congruence.
      * rewrite IH. split.
        -- intros (pre & q & post & -> & Hpre & Hhit).
           exists (p :: pre), q, post. repeat split; [|assumption].
           constructor; [split; assumption | assumption].
        -- intros (pre & q & post & Heq & Hpre & Hhit).
           destruct pre as [|p' pre]; simpl in Heq; injection Heq as -> Hrest.
           ++ destruct Hhit as [[Hyes _] | (_ & Hyes & _)]; congruence.
           ++ exists pre, q, post. repeat split; [assumption| |assumption].
              inversion Hpre; assumption.
Qed.

(** *** Which test a location came from *)

Lemma chars_app (a b : string) : chars (a +:+ b) = chars a ++ chars b.
Proof.
  unfold chars. induction a as [|c a IH]; simpl; [reflexivity|].
  rewrite IH. reflexivity.
Qed.

Lemma str_endswith_self (s : string) : str_endswith s s = true.
Proof.
  destruct s; [reflexivity|]. cbn [str_endswith].
  rewrite String.eqb_refl. reflexivity.
Qed.

Lemma str_endswith_app (pre suf : string) :
  str_endswith (pre +:+ suf) suf = true.
Proof.
  induction pre as [|c pre IH].
  - apply str_endswith_self.
  - change (String c pre +:+ suf) with (String c (pre +:+ suf)).
    cbn [str_endswith].
    destruct (String.eqb (String c (pre +:+ suf)) suf); [reflexivity|].
    exact IH.
Qed.

Lemma str_endswith_inv (s suf : string) :
  str_endswith s suf = true -> exists pre : string, s = pre +:+ suf.
Proof.
  induction s as [|c s IH]; cbn [str_endswith].
  - destruct (String.eqb_spec "" suf) as [<-|]; [|discriminate].
    intros _. exists "". reflexivity.
  - destruct (String.eqb_spec (String c s) suf) as [<-|].
    + intros _. exists "". reflexivity.
    + intros Hs. destruct (IH Hs) as [pre ->]. exists (String c pre).
      reflexivity.
Qed.

Lemma str_split_dotless (s : string) :
  str_split "." s <> [] /\ Forall dotless (str_split "." s).
Proof.
  induction s as [|c s [Hne IH]]; simpl.
  - split; [discriminate|]. constructor; [|constructor].
    unfold dotless, chars. simpl. apply not_elem_of_nil.
  - destruct (Ascii.eqb_spec c ".") as [->|Hc].
    + split; [discriminate|]. constructor; [|exact IH].
      unfold dotless, chars. simpl. apply not_elem_of_nil.
    + destruct (str_split "." s) as [|w ws]; [congruence|].
      split; [discriminate|].
      inversion IH as [|? ? Hw Hws]; subst. constructor; [|exact Hws].
      unfold dotless, chars in *. simpl. intros Hin.
      apply elem_of_cons in Hin as [Heq|Hin]; [congruence | exact (Hw Hin)].
Qed.

Lemma str_join_dotless (l : list string) :
  Forall dotless l -> dotless (str_join "/" l).
Proof.
  induction l as [|w rest IH]; intros Hall.
  - unfold dotless, chars. simpl. apply not_elem_of_nil.
  - inversion Hall as [|? ? Hw Hrest]; subst.
    destruct rest as [|w' rest]; [exact Hw|].
    change (str_join "/" (w :: w' :: rest))
      with (w +:+ "/" +:+ str_join "/" (w' :: rest)).
    unfold dotless in *. rewrite !chars_app. intros Hin.
    apply elem_of_app in Hin as [Hin|Hin]; [exact (Hw Hin)|].
    apply elem_of_app in Hin as [Hin|Hin]; [|exact (IH Hrest Hin)].
    unfold chars in Hin. simpl in Hin.
    apply list_elem_of_singleton in Hin. discriminate.
Qed.

Lemma dotted_to_path_dotless (fullname : string) :
  dotless (dotted_to_path fullname).
Proof. apply str_join_dotless, str_split_dotless. Qed.

Lemma dotless_no_extension (P : string) (pre : list ascii) :
  dotless P -> chars P <> pre ++ chars ".py".
Proof.
  intros Hdot Heq. apply Hdot. rewrite Heq.
  apply elem_of_app. right. unfold chars. simpl. constructor.
Qed.

Lemma slash_dotless_no_extension (X : list ascii) (P : string)
    (pre : list ascii) :
  dotless P -> X ++ "/"%char :: chars P <> pre ++ chars ".py".
Proof.
  intros Hdot Heq. apply (f_equal reverse) in Heq.
  rewrite !reverse_app, reverse_cons in Heq. unfold chars at 2 in Heq.
  simpl in Heq.
  assert (Hrev : "."%char ∉ reverse (chars P))
    by (rewrite elem_of_reverse; exact Hdot).
  destruct (reverse (chars P)) as [|a [|b [|c rest]]]; simpl in Heq;
    try discriminate.
  injection Heq as _ _ -> _. apply Hrev. do 2 constructor. constructor.
Qed.

(** The bare path of a dotted name under a root never carries the source
    extension, and the path with the extension always does: the test
    [f.endswith(".py")] of the loader tells apart the two tests of [fn]. *)
Lemma bare_path_no_extension (p fullname : string) :
  str_endswith (os_path_join p (dotted_to_path fullname)) ".py" = false.
Proof.
  pose proof (dotted_to_path_dotless fullname) as Hdot.
  generalize dependent (dotted_to_path fullname). intros paths Hdot.
  destruct (str_endswith (os_path_join p paths) ".py") eqn:E; [|reflexivity].
  exfalso. apply str_endswith_inv in E as [pre E].
  apply (f_equal chars) in E. rewrite chars_app in E.
  unfold os_path_join in E.
  destruct (str_startswith paths "/").
  { exact (dotless_no_extension _ _ Hdot E). }
  destruct (String.eqb_spec p "") as [->|Hp]; simpl in E.
  { exact (dotless_no_extension _ _ Hdot E). }
  destruct (str_endswith p "/") eqn:Hslash.
  - apply str_endswith_inv in Hslash as [q ->].
    rewrite !chars_app, <- app_assoc in E.
    exact (slash_dotless_no_extension _ _ _ Hdot E).
  - rewrite !chars_app in E.
    exact (slash_dotless_no_extension _ _ _ Hdot E).
Qed.

Lemma hit_extension fs (p f fullname : string) :
  hits fs (dotted_to_path fullname) p f ->
  str_endswith f ".py" =
  negb (os_path_exists fs (os_path_join p (dotted_to_path fullname))).
Proof.
  intros [[Hex ->] | (Hno & _ & ->)].
  - rewrite Hex. apply bare_path_no_extension.
  - rewrite Hno. apply str_endswith_app.
Qed.

(** C5, as amended: the dotted name is split on dots and joined with the
    path separator; the roots are tried in order, each first for the bare
    path (present as an entry of any kind) and otherwise for the path with
    the source extension; the first root that answers decides the result,
    whatever comes after it; and the result is not-found exactly when
    every root misses both forms.  [fn] is a function of the filesystem
    and the roots: it returns a location and changes nothing. *)
Theorem fn_first_root_wins (fs : filesystem) (roots : list string)
    (fullname : string) :
  let paths := str_join "/" (str_split "." fullname) in
  (fn fs roots fullname = None <-> Forall (misses fs paths) roots)
  /\ (forall f : string,
        fn fs roots fullname = Some f <->
        exists (pre : list string) (p : string) (post : list string),
          roots = (pre ++ p :: post)%list
          /\ Forall (misses fs paths) pre
          /\ hits fs paths p f).
Proof.
  intros paths. split.
  - apply fn_roots_None.
  - intros f. apply fn_roots_Some.
Qed.

(** Roots after the one that answers are not looked at: they can be
    replaced by anything. *)
Lemma fn_later_roots_ignored fs (pre : list string) p (post post' : list string)
    fullname f :
  Forall (misses fs (dotted_to_path fullname)) pre ->
  hits fs (dotted_to_path fullname) p f ->
  fn fs (pre ++ p :: post)%list fullname = Some f
  /\ fn fs (pre ++ p :: post')%list fullname = Some f.
Proof.
  intros Hpre Hhit. unfold fn.
  split; apply fn_roots_Some; eauto 10.
Qed.

(** Where every bare path that exists is a directory, [fn] is the resolver
    of the specification. *)
Lemma fn_resolve_spec_agree fs roots fullname :
  (forall p : string, p ∈ roots ->
     os_path_exists fs (os_path_join p (dotted_to_path fullname)) = true ->
     os_path_isdir fs (os_path_join p (dotted_to_path fullname)) = true) ->
  fn fs roots fullname = resolve_spec fs roots fullname.
Proof.
  unfold fn, resolve_spec. generalize (dotted_to_path fullname) as paths.
  intros paths. induction roots as [|p rest IH]; intros Hdir; simpl.
  - reflexivity.
  - assert (Hp : p ∈ p :: rest) by constructor.
    destruct (os_path_exists fs (os_path_join p paths)) eqn:E1.
    + rewrite (Hdir p Hp E1). reflexivity.
    + assert (os_path_isdir fs (os_path_join p paths) = false) as ->.
      { unfold os_path_isdir, os_path_exists in *.
        destruct (fs (os_path_join p paths)); [discriminate | reflexivity]. }
      destruct (os_path_exists fs (os_path_join p paths +:+ ".py"));
        [reflexivity|].
      apply IH. intros q Hq. apply Hdir. constructor; assumption.
Qed.

(** C5, as stated, fails: a regular file without extension under a root
    is returned as a hit although it is no directory, where the resolver
    of the specification finds nothing. *)
Lemma fn_hits_regular_file :
  fn flat_fs ["/plugins"] "foo" = Some "/plugins/foo"
  /\ os_path_isdir flat_fs "/plugins/foo" = false
  /\ resolve_spec flat_fs ["/plugins"] "foo" = None.
Proof. repeat split; reflexivity. Qed.

(** The scenario of the specification, with [.py] for the extension. *)
Example fn_scenario :
  fn plugins_fs ["/plugins"] "foo.bar" = Some "/plugins/foo/bar.py"
  /\ fn plugins_fs ["/plugins"] "foo.baz" = None
  /\ fn plugins_fs ["/plugins"] "foo" = Some "/plugins/foo".
Proof. repeat split; reflexivity. Qed.

(** ** Event channels *)

Lemma list_remove_None (l : list pyobj) x :
  list_remove l x = None <-> x ∉ l.
Proof.
  induction l as [|y rest IH]; simpl.
  - split; [intros _; apply not_elem_of_nil | reflexivity].
  - destruct (decide (y = x)) as [->|Hne].
    + split; [discriminate|]. intros Hn. exfalso. apply Hn. constructor.
    + destruct (list_remove rest x) eqn:E.
      * split; [discriminate|]. intros Hn. exfalso.
        assert (x ∉ rest) as Hr
          by (intros Hin; apply Hn; constructor; exact Hin).
        apply IH in Hr. discriminate.
      * split; [|reflexivity]. intros _ Hin.
        apply elem_of_cons in Hin as [->|Hin]; [congruence|].
        destruct IH as [IH1 _]. apply IH1; [reflexivity | assumption].
Qed.

Lemma list_remove_Some (l : list pyobj) x l' :
  list_remove l x = Some l' <->
  exists pre post : list pyobj,
    l = pre ++ x :: post /\ (x ∉ pre) /\ l' = pre ++ post.
Proof.
  revert l'. induction l as [|y rest IH]; intros l'; simpl.
  - split; [discriminate|]. intros (pre & post & Heq & _).
    destruct pre; discriminate.
  - destruct (decide (y = x)) as [->|Hne].
    + split.
      * intros [= <-]. exists [], rest. repeat split.
        apply not_elem_of_nil.
      * intros (pre & post & Heq & Hnot & ->).
        destruct pre as [|z pre]; simpl in *.
        -- injection Heq as ->. reflexivity.
        -- injection Heq as -> _. exfalso. apply Hnot. constructor.
    + split.
      * destruct (list_remove rest x) as [r|] eqn:E; [|discriminate].
        intros [= <-]. destruct (IH r) as [IH1 _].
        destruct (IH1 eq_refl) as (pre & post & -> & Hnot & ->).
        exists (y :: pre), post. repeat split.
        intros Hin. apply elem_of_cons in Hin as [->|Hin]; [congruence|].
        exact (Hnot Hin).
      * intros (pre & post & Heq & Hnot & ->).
        destruct pre as [|z pre]; simpl in *.
        -- injection Heq as -> _. congruence.
        -- injection Heq as -> ->.
           assert (list_remove (pre ++ x :: post) x = Some (pre ++ post)) as ->.
           { apply IH. exists pre, post. repeat split.
             intros Hin. apply Hnot. constructor. exact Hin. }
           reflexivity.
Qed.

(** C9: [-=] removes the first observer equal to the given one and keeps
    the others in order; when no observer is equal to it the [ValueError]
    of [list.remove] reaches the caller. *)
Theorem Event_isub_first_match (self : Event) (observer : pyobj) :
  (Event_isub self observer = inl ValueError <->
     observer ∉ observers self)
  /\ (forall self' : Event,
        Event_isub self observer = inr self' <->
        exists pre post : list pyobj,
          observers self = pre ++ observer :: post
          /\ (observer ∉ pre)
          /\ self' = MkEvent (pre ++ post)).
Proof.
  unfold Event_isub. split.
  - rewrite <- list_remove_None.
    destruct (list_remove (observers self) observer);
      split; intros; congruence.
  - intros self'.
    destruct (list_remove (observers self) observer) as [l|] eqn:E.
    + split.
      * intros [= <-]. apply list_remove_Some in E as (pre & post & ? & ? & ->).
        exists pre, post. auto.
      * intros (pre & post & Heq & Hnot & ->).
        assert (list_remove (observers self) observer = Some (pre ++ post))
          as E' by (apply list_remove_Some; eauto).
        congruence.
    + split; [discriminate|].
      intros (pre & post & Heq & Hnot & ->).
      assert (list_remove (observers self) observer = Some (pre ++ post)) as E'
        by (apply list_remove_Some; eauto).
      congruence.
Qed.

Example Event_isub_ex :
  Event_isub (MkEvent [obs1; obs2; obs1]) obs1 = inr (MkEvent [obs2; obs1])
  /\ Event_isub (MkEvent [obs2]) obs1 = inl ValueError.
Proof. split; reflexivity. Qed.

Section EventProperties.
Context {Host : Type} (W : interp Host).
Implicit Types (s : state Host) (a x : args) (o : pyobj) (c : channel).

(** One turn of the loop of [__call__]: the observer is called, and when
    it raises the traceback is printed; the turn itself ends normally. *)
Lemma guarded_invoke o a s :
  try_except (invoke W o a) (traceback_print_exc (Host := Host)) s =
  (Ok tt,
   match invoke W o a s with
   | (Ok _, s1) => s1
   | (Raise e, s1) => print (Traceback e) s1
   end).
Proof.
  unfold try_except. destruct (invoke W o a s) as [[[]|e] s1]; reflexivity.
Qed.

Lemma invoke_effects o a s :
  journal (snd (invoke W o a s)) = journal s ++ [Call o a]
  /\ stdout (snd (invoke W o a s)) = stdout s.
Proof.
  unfold invoke. destruct (obj_callable o); simpl.
  - destruct (call_object W o a (host s)) as [h [e|]]; split; reflexivity.
  - split; reflexivity.
Qed.

(** What a call is on the host: the object is run when it can be called,
    and the outcome of the call is the outcome of the run. *)
Lemma invoke_host o a s :
  if obj_callable o
  then host (snd (invoke W o a s)) = fst (call_object W o a (host s))
       /\ fst (invoke W o a s) =
          match snd (call_object W o a (host s)) with
          | None => Ok tt
          | Some e => Raise e
          end
  else host (snd (invoke W o a s)) = host s
       /\ fst (invoke W o a s) = Raise TypeError.
Proof.
  unfold invoke. destruct (obj_callable o); simpl.
  - destruct (call_object W o a (host s)) as [h [e|]]; split; reflexivity.
  - split; reflexivity.
Qed.

Lemma invoke_channels o a s :
  (obj_callable o = true -> leaves_channels W o a) ->
  on_load (snd (invoke W o a s)) = on_load s
  /\ on_new (snd (invoke W o a s)) = on_new s.
Proof.
  intros Hleaves. unfold invoke. destruct (obj_callable o); simpl.
  - rewrite (Hleaves eq_refl).
    destruct (call_object W o a (host s)) as [h [e|]]; split; reflexivity.
  - split; reflexivity.
Qed.

(** *** A list that does not change *)

Lemma call_in_turn_unfold o (rest : list pyobj) a s :
  call_in_turn W (o :: rest) a s =
  call_in_turn W rest a
    (snd (try_except (invoke W o a) (traceback_print_exc (Host := Host)) s)).
Proof.
  simpl. unfold bind at 1. rewrite guarded_invoke. reflexivity.
Qed.

Lemma call_in_turn_returns (obs : list pyobj) a s :
  fst (call_in_turn W obs a s) = Ok tt.
Proof.
  revert s. induction obs as [|o rest IH]; intros s.
  - reflexivity.
  - rewrite call_in_turn_unfold. apply IH.
Qed.

Lemma call_in_turn_app (pre post : list pyobj) a s :
  call_in_turn W (pre ++ post) a s =
  call_in_turn W post a (snd (call_in_turn W pre a s)).
Proof.
  revert s. induction pre as [|o rest IH]; intros s.
  - reflexivity.
  - rewrite <- app_comm_cons, !call_in_turn_unfold. apply IH.
Qed.

Lemma call_in_turn_journal (obs : list pyobj) a s :
  journal (snd (call_in_turn W obs a s)) =
  journal s ++ map (fun o => Call o a) obs.
Proof.
  revert s. induction obs as [|o rest IH]; intros s.
  - simpl. rewrite app_nil_r. reflexivity.
  - rewrite call_in_turn_unfold, IH, guarded_invoke. simpl.
    destruct (invoke_effects o a s) as [Hj _].
    destruct (invoke W o a s) as [[[]|e] s1]; simpl in *;
      rewrite Hj, <- app_assoc; reflexivity.
Qed.

(** The observers of the list are really run, in order, each on the host
    as the one before left it; the tracebacks of those that raised are
    what is printed. *)
Lemma call_in_turn_runs (obs : list pyobj) a s :
  host (snd (call_in_turn W obs a s)) =
    fst (run_observers W obs a (host s))
  /\ stdout (snd (call_in_turn W obs a s)) =
     stdout s ++ snd (run_observers W obs a (host s)).
Proof.
  revert s. induction obs as [|o rest IH]; intros s.
  - simpl. rewrite app_nil_r. auto.
  - rewrite call_in_turn_unfold, guarded_invoke. cbn [snd run_observers].
    pose proof (invoke_host o a s) as Hh.
    destruct (invoke_effects o a s) as [_ Hout].
    destruct (obj_callable o).
    + destruct Hh as [Hhost Hres].
      destruct (call_object W o a (host s)) as [h [e|]]; simpl in *;
        destruct (invoke W o a s) as [[[]|e'] s1]; simpl in *;
        try discriminate.
      * injection Hres as <-.
        destruct (IH (print (Traceback e') s1)) as [-> ->]. simpl.
        rewrite Hhost, Hout, <- app_assoc. auto.
      * destruct (IH s1) as [-> ->]. rewrite Hhost, Hout. auto.
    + destruct Hh as [Hhost Hres].
      destruct (invoke W o a s) as [[[]|e'] s1]; simpl in *;
        try discriminate.
      injection Hres as ->.
      destruct (IH (print (Traceback TypeError) s1)) as [-> ->]. simpl.
      rewrite Hhost, Hout, <- app_assoc. auto.
Qed.

Lemma guarded_invoke_channels o a s :
  (obj_callable o = true -> leaves_channels W o a) ->
  forall c,
    get_channel c
      (snd (try_except (invoke W o a) (traceback_print_exc (Host := Host)) s))
    = get_channel c s.
Proof.
  intros Hleaves c. rewrite guarded_invoke. simpl.
  destruct (invoke_channels o a s Hleaves) as [Hl Hn].
  destruct (invoke W o a s) as [[[]|e] s1]; destruct c; simpl in *;
    assumption.
Qed.

Lemma call_in_turn_channels (obs : list pyobj) a s c :
  (forall o, o ∈ obs -> obj_callable o = true -> leaves_channels W o a) ->
  get_channel c (snd (call_in_turn W obs a s)) = get_channel c s.
Proof.
  revert s. induction obs as [|o rest IH]; intros s Hall; [reflexivity|].
  rewrite call_in_turn_unfold, IH.
  - apply guarded_invoke_channels. apply Hall. constructor.
  - intros o' Hin. apply Hall. constructor. exact Hin.
Qed.

(** *** The list as it is at each turn *)

Lemma Event_call_from_eq (fuel : nat) c (i : nat) a s :
  Event_call_from W fuel c i a s =
  match observers (get_channel c s) !! i with
  | None => Some (Ok tt, s)
  | Some observer =>
      match fuel with
      | 0 => None
      | S fuel' =>
          Event_call_from W fuel' c (S i) a
            (snd (try_except (invoke W observer a)
                    (traceback_print_exc (Host := Host)) s))
      end
  end.
Proof.
  destruct fuel; simpl;
    destruct (observers (get_channel c s) !! i) as [o|]; try reflexivity.
  rewrite guarded_invoke. reflexivity.
Qed.

(** As long as the observers still to come leave the channels alone, the
    loop of [__call__] is the calls of these observers in turn, and as
    many turns as there are observers are enough. *)
Lemma Event_call_from_in_turn c a (rest : list pyobj) :
  forall (i : nat) s (fuel : nat),
    drop i (observers (get_channel c s)) = rest ->
    length rest <= fuel ->
    (forall o, o ∈ rest -> obj_callable o = true -> leaves_channels W o a) ->
    Event_call_from W fuel c i a s = Some (call_in_turn W rest a s).
Proof.
  induction rest as [|o rest IH]; intros i s fuel Hdrop Hfuel Hall.
  - rewrite Event_call_from_eq.
    assert (Hlen : length (observers (get_channel c s)) <= i).
    { pose proof (length_drop (observers (get_channel c s)) i) as Hl.
      rewrite Hdrop in Hl. simpl in Hl. lia. }
    rewrite (lookup_ge_None_2 _ _ Hlen). reflexivity.
  - rewrite Event_call_from_eq.
    assert (Hat : observers (get_channel c s) !! i = Some o).
    { pose proof (lookup_drop (observers (get_channel c s)) i 0) as Hl.
      rewrite Hdrop, Nat.add_0_r in Hl. simpl in Hl. congruence. }
    rewrite Hat. destruct fuel as [|fuel]; [simpl in Hfuel; lia|].
    rewrite call_in_turn_unfold. apply IH.
    + rewrite guarded_invoke_channels by (apply Hall; constructor).
      replace (S i) with (i + 1) by lia.
      rewrite <- drop_drop, Hdrop. reflexivity.
    + simpl in Hfuel. lia.
    + intros o' Hin. apply Hall. constructor. exact Hin.
Qed.

(** Firing a channel whose observers leave the channels alone. *)
Lemma Event_call_in_turn c a s :
  (forall o, o ∈ observers (get_channel c s) ->
     obj_callable o = true -> leaves_channels W o a) ->
  Event_call W (length (observers (get_channel c s))) c a s =
  Some (call_in_turn W (observers (get_channel c s)) a s).
Proof.
  intros Hall. unfold Event_call.
  apply Event_call_from_in_turn; [reflexivity | lia | exact Hall].
Qed.

(** Firing such a channel runs its observers, in order, on the host. *)
Lemma Event_call_runs c a s :
  (forall o, o ∈ observers (get_channel c s) -> leaves_channels W o a) ->
  exists t : state Host,
    Event_call W (length (observers (get_channel c s))) c a s =
    Some (Ok tt, t)
    /\ host t = fst (run_observers W (observers (get_channel c s)) a (host s))
    /\ stdout t =
       stdout s ++ snd (run_observers W (observers (get_channel c s)) a
                          (host s)).
Proof.
  intros Hall.
  rewrite Event_call_in_turn by (intros o Hin _; apply Hall; exact Hin).
  exists (snd (call_in_turn W (observers (get_channel c s)) a s)).
  split; [|apply call_in_turn_runs].
  rewrite <- (call_in_turn_returns (observers (get_channel c s)) a s).
  destruct (call_in_turn W (observers (get_channel c s)) a s); reflexivity.
Qed.

Lemma subscribe_all_effects c (os : list pyobj) s :
  observers (get_channel c (subscribe_all c os s)) =
    observers (get_channel c s) ++ os
  /\ host (subscribe_all c os s) = host s
  /\ stdout (subscribe_all c os s) = stdout s
  /\ journal (subscribe_all c os s) = journal s.
Proof.
  unfold subscribe_all. revert s.
  induction os as [|o rest IH]; intros s; simpl.
  - rewrite app_nil_r. auto.
  - destruct (IH (subscribe c o s)) as (-> & -> & -> & ->).
    destruct c; simpl; rewrite <- app_assoc; auto.
Qed.

(** What a firing prints, whatever its observers do. *)
Lemma Event_call_from_prints (fuel : nat) c x :
  forall (i : nat) s (r : result unit) (s' : state Host),
    Event_call_from W fuel c i x s = Some (r, s') ->
    r = Ok tt
    /\ exists printed : list line,
         stdout s' = stdout s ++ printed
         /\ length printed <= fuel
         /\ Forall (fun l => exists e : exn, l = Traceback e) printed.
Proof.
  induction fuel as [|fuel IH]; intros i s r s'; rewrite Event_call_from_eq.
  - destruct (observers (get_channel c s) !! i); [discriminate|].
    intros [= <- <-]. split; [reflexivity|]. exists [].
    rewrite app_nil_r. repeat split; [simpl; lia | constructor].
  - destruct (observers (get_channel c s) !! i) as [o|].
    + rewrite guarded_invoke. cbn [snd]. intros Hrun.
      destruct (IH _ _ _ _ Hrun) as (-> & printed & Hout & Hlen & Hall).
      split; [reflexivity|].
      destruct (invoke_effects o x s) as [_ Hs].
      destruct (invoke W o x s) as [[[]|e] s1]; simpl in *.
      * exists printed. rewrite Hout, Hs. repeat split; [lia | exact Hall].
      * exists (Traceback e :: printed).
        rewrite Hout, Hs, <- app_assoc. simpl.
        repeat split; [lia | constructor; eauto].
    + intros [= <- <-]. split; [reflexivity|]. exists [].
      rewrite app_nil_r. repeat split; [simpl; lia | constructor].
Qed.

(** C3, as amended: after [c += o1], ..., [c += on] the observer list is
    the old one followed by [o1 .. on], repetitions kept; when none of
    these observers changes a channel while it is called, firing the
    channel with [x] returns normally and has run exactly these
    observers, one run for each subscription, in subscription order,
    each with [x] and on the host as the one before left it. *)
Theorem fire_in_subscription_order c (os : list pyobj) x s :
  let s0 := subscribe_all c os s in
  let called := observers (get_channel c s) ++ os in
  observers (get_channel c s0) = called
  /\ ((forall o, o ∈ called -> leaves_channels W o x) ->
      exists s' : state Host,
        Event_call W (length called) c x s0 = Some (Ok tt, s')
        /\ host s' = fst (run_observers W called x (host s))
        /\ stdout s' = stdout s ++ snd (run_observers W called x (host s))
        /\ journal s' = journal s ++ map (fun o => Call o x) called
        /\ get_channel c s' = get_channel c s0).
Proof.
  intros s0 called.
  destruct (subscribe_all_effects c os s) as (Hobs & Hh & Hout & Hj).
  fold s0 in Hobs, Hh, Hout, Hj. fold called in Hobs.
  split; [exact Hobs|]. intros Hall.
  assert (Hquiet : forall o, o ∈ observers (get_channel c s0) ->
            obj_callable o = true -> leaves_channels W o x).
  { intros o Hin _. apply Hall. rewrite Hobs in Hin. exact Hin. }
  exists (snd (call_in_turn W called x s0)).
  pose proof (Event_call_in_turn c x s0 Hquiet) as Hrun.
  rewrite Hobs in Hrun. rewrite Hrun.
  destruct (call_in_turn_runs called x s0) as [Hhost Hprint].
  repeat split.
  - rewrite <- (call_in_turn_returns called x s0).
    destruct (call_in_turn W called x s0); reflexivity.
  - rewrite Hhost, Hh. reflexivity.
  - rewrite Hprint, Hout, Hh. reflexivity.
  - rewrite call_in_turn_journal, Hj. reflexivity.
  - apply call_in_turn_channels. rewrite <- Hobs. exact Hquiet.
Qed.

(** C4, as amended: at whatever turn of the loop of a firing an
    observer raises [e], the traceback of [e] is printed and the firing,
    when it ends, returns normally, whatever the observers called after
    it do; and when none of the observers of the channel changes a
    channel while it is called, the firing does end and the observers
    after the one that raised are run from the state so reached, each on
    the host as the one before left it. *)
Theorem fire_isolates_failures c o x (e : exn) :
  (forall (i : nat) (t : state Host) (fuel : nat) (r : result unit)
          (s' : state Host),
     observers (get_channel c t) !! i = Some o ->
     fst (invoke W o x t) = Raise e ->
     Event_call_from W fuel c i x t = Some (r, s') ->
     r = Ok tt /\ Traceback e ∈ stdout s')
  /\ (forall (pre post : list pyobj) s,
        observers (get_channel c s) = pre ++ o :: post ->
        (forall o', o' ∈ pre ++ o :: post -> leaves_channels W o' x) ->
        let s1 := snd (call_in_turn W pre x s) in
        fst (invoke W o x s1) = Raise e ->
        exists s' : state Host,
          Event_call W (length (pre ++ o :: post)) c x s = Some (Ok tt, s')
          /\ s' = snd (call_in_turn W post x
                         (print (Traceback e) (snd (invoke W o x s1))))
          /\ Traceback e ∈ stdout s'
          /\ host s' =
             fst (run_observers W post x (host (snd (invoke W o x s1))))
          /\ journal s' =
             journal s ++ map (fun o' => Call o' x) (pre ++ o :: post)).
Proof.
  split.
  - intros i t fuel r s' Hat Hraise. rewrite Event_call_from_eq, Hat.
    destruct fuel as [|fuel]; [discriminate|].
    rewrite guarded_invoke. cbn [snd]. intros Hrun.
    destruct (Event_call_from_prints _ _ _ _ _ _ _ Hrun)
      as (-> & printed & Hout & _).
    split; [reflexivity|]. rewrite Hout.
    destruct (invoke W o x t) as [[[]|e'] t1]; cbn [fst] in Hraise;
      [discriminate|].
    injection Hraise as ->. simpl. set_solver.
  - intros pre post s Hobs Hall s1 Hraise.
    set (s2 := print (Traceback e) (snd (invoke W o x s1))).
    assert (Hturn : call_in_turn W (pre ++ o :: post) x s =
                    call_in_turn W post x s2).
    { rewrite call_in_turn_app, call_in_turn_unfold, guarded_invoke.
      fold s1. unfold s2. simpl.
      destruct (invoke W o x s1) as [[[]|e'] t]; simpl in *; congruence. }
    assert (Hrun : Event_call W (length (pre ++ o :: post)) c x s =
                   Some (call_in_turn W post x s2)).
    { rewrite <- Hturn, <- Hobs. apply Event_call_in_turn.
      intros o' Hin _. apply Hall. rewrite <- Hobs. exact Hin. }
    exists (snd (call_in_turn W post x s2)). rewrite Hrun.
    destruct (call_in_turn_runs post x s2) as [Hhost Hprint].
    repeat split.
    + rewrite <- (call_in_turn_returns post x s2).
      destruct (call_in_turn W post x s2); reflexivity.
    + rewrite Hprint. unfold s2. simpl. set_solver.
    + rewrite Hhost. reflexivity.
    + rewrite <- Hturn. apply call_in_turn_journal.
Qed.

End EventProperties.

Lemma fire_in_subscription_order_witness :
  (forall o, o ∈ [obs2] ++ [obs1; obs2] ->
     leaves_channels logging_interp o [a_string])
  /\ exists s' : state (list pyobj),
       Event_call logging_interp 3 ch_on_new [a_string]
         (subscribe_all ch_on_new [obs1; obs2] (logging_state [] [obs2])) =
       Some (Ok tt, s')
       /\ host s' = [obs2; obs1; obs2]
       /\ stdout s' = [Traceback (PluginError 1)].
Proof.
  assert (Hall : forall o,
            o ∈ observers (get_channel ch_on_new (logging_state [] [obs2]))
                ++ [obs1; obs2] ->
            leaves_channels logging_interp o [a_string]).
  { intros o Hin h chans. simpl in Hin.
    assert (Hne : o <> leaver).
    { intros ->. repeat (apply elem_of_cons in Hin as [Hin|Hin];
                         [discriminate|]).
      apply elem_of_nil in Hin. exact Hin. }
    simpl. rewrite decide_False by exact Hne. reflexivity. }
  split; [exact Hall|].
  destruct (proj2 (fire_in_subscription_order logging_interp ch_on_new
                     [obs1; obs2] [a_string] (logging_state [] [obs2]))
              Hall)
    as (s' & Hrun & Hhost & Hout & _).
  exists s'. split; [exact Hrun|]. split; [exact Hhost | exact Hout].
Defined.

(** C3, as stated, fails: [leaver] and [obs2] are subscribed to [on_load]
    in this order and the channel is fired; [leaver] takes itself off the
    list while it is called, the list is read anew at the next turn, and
    [obs2] is never called. *)
Lemma fire_skips_after_unsubscribe :
  exists s' : state (list pyobj),
    Event_call logging_interp 2 ch_on_load []
      (subscribe_all ch_on_load [leaver; obs2] (logging_state [] [])) =
    Some (Ok tt, s')
    /\ host s' = [leaver]
    /\ observers (on_load s') = [obs2].
Proof.
  set (r := Event_call _ _ _ _ _). vm_compute in r. subst r.
  eexists. split; [reflexivity|]. split; reflexivity.
Qed.

Lemma fire_isolates_failures_witness :
  observers (get_channel ch_on_load (logging_state [obs2; obs1; obs2] [])) =
    [obs2] ++ obs1 :: [obs2]
  /\ fst (invoke logging_interp obs1 []
            (snd (call_in_turn logging_interp [obs2] []
                    (logging_state [obs2; obs1; obs2] []))))
     = Raise (PluginError 1)
  /\ exists s' : state (list pyobj),
       Event_call logging_interp 3 ch_on_load []
         (logging_state [obs2; obs1; obs2] []) = Some (Ok tt, s')
       /\ stdout s' = [Traceback (PluginError 1)]
       /\ host s' = [obs2; obs1; obs2].
Proof.
  split; [reflexivity|]. split; [reflexivity|].
  assert (Hall : forall o, o ∈ [obs2] ++ obs1 :: [obs2] ->
            leaves_channels logging_interp o []).
  { intros o Hin h chans. simpl in Hin.
    assert (Hne : o <> leaver).
    { intros ->. repeat (apply elem_of_cons in Hin as [Hin|Hin];
                         [discriminate|]).
      apply elem_of_nil in Hin. exact Hin. }
    simpl. rewrite decide_False by exact Hne. reflexivity. }
  destruct (proj2 (fire_isolates_failures logging_interp ch_on_load obs1 []
                     (PluginError 1))
              [obs2] [obs2] (logging_state [obs2; obs1; obs2] [])
              eq_refl Hall eq_refl) as (s' & Hrun & Hs' & _ & Hhost & _).
  exists s'. split; [exact Hrun|]. split; [|exact Hhost].
  rewrite Hs'. reflexivity.
Defined.

(** C4, as stated, fails: [obs1] raises, [leaver] after it takes itself
    off the list, and [obs2], subscribed after both, is never called in
    this firing. *)
Lemma fire_skips_after_failure :
  exists s' : state (list pyobj),
    Event_call logging_interp 3 ch_on_load []
      (logging_state [obs1; leaver; obs2] []) = Some (Ok tt, s')
    /\ stdout s' = [Traceback (PluginError 1)]
    /\ host s' = [obs1; leaver].
Proof.
  set (r := Event_call _ _ _ _ _). vm_compute in r. subst r.
  eexists. split; [reflexivity|]. split; reflexivity.
Qed.

(** ** The loader *)

Section LoaderProperties.
Context {Host : Type} (W : interp Host).
Implicit Types (s t : state Host) (m : module).

(** A cached name is answered from the cache: nothing is resolved or run,
    the state is the same. *)
Lemma load_module_cached fullname m t :
  sys_modules t !! fullname = Some m ->
  load_module W fullname t = (Ok m, t).
Proof. intros Hc. unfold load_module. rewrite Hc. reflexivity. Qed.

(** The two ways of a load of a name that is not cached. *)
Lemma load_module_uncached fullname s :
  sys_modules s !! fullname = None ->
  load_module W fullname s =
  let s0 := record (Resolve fullname) s in
  match fn (fs s) (sys_path s) fullname with
  | None => (Raise AttributeError, s0)
  | Some f =>
      if str_endswith f ".py" then load_source W fullname f s0
      else
        let m := new_module (next_id s) fullname f in
        (Ok m, cache_module fullname m s0)
  end.
Proof.
  intros Hc. unfold load_module. rewrite Hc. simpl.
  destruct (fn (fs s) (sys_path s) fullname) as [f|]; [|reflexivity].
  destruct (str_endswith f ".py"); reflexivity.
Qed.

(** What the imports of a source leave in the cache: the entries that
    were there, and new modules under the names imported. *)
Lemma cache_imports_spec (imports : list imported) s :
  next_id s <= next_id (cache_imports imports s)
  /\ (forall k m, sys_modules s !! k = Some m ->
                  sys_modules (cache_imports imports s) !! k = Some m)
  /\ (forall k m,
        sys_modules (cache_imports imports s) !! k = Some m ->
        sys_modules s !! k = Some m
        \/ (k ∈ import_names imports /\ mod_name m = k
            /\ next_id s <= mod_id m
            /\ mod_id m < next_id (cache_imports imports s))).
Proof.
  revert s. induction imports as [|[[name path] members] rest IH];
    intros s; cbn [cache_imports].
  - split; [lia|]. split; auto.
  - set (s2 := match sys_modules s !! name with
               | Some _ => s
               | None =>
                   cache_module name (Module (next_id s) name path members) s
               end).
    destruct (IH s2) as (Hnext & Hkeep & Hnew).
    assert (Hstep : next_id s <= next_id s2
              /\ (forall k m, sys_modules s !! k = Some m ->
                              sys_modules s2 !! k = Some m)
              /\ (forall k m, sys_modules s2 !! k = Some m ->
                    sys_modules s !! k = Some m
                    \/ (k = name /\ mod_name m = k
                        /\ mod_id m = next_id s
                        /\ next_id s < next_id s2))).
    { unfold s2. destruct (sys_modules s !! name) as [m0|] eqn:Hc.
      - split; [lia|]. split; auto.
      - simpl. split; [lia|]. split.
        + intros k m Hk. rewrite lookup_insert_ne; [exact Hk|].
          intros ->. congruence.
        + intros k m. destruct (decide (name = k)) as [<-|Hne].
          * rewrite lookup_insert_eq. intros [= <-]. right. simpl.
            repeat split; lia.
          * rewrite lookup_insert_ne by exact Hne. auto. }
    destruct Hstep as (Hnext2 & Hkeep2 & Hnew2).
    split; [lia|]. split; [auto|].
    intros k m Hk. unfold import_names. cbn [map fst].
    destruct (Hnew k m Hk) as [Hold | (Hin & Hn & Hlo & Hhi)].
    + destruct (Hnew2 k m Hold) as [Hs | (-> & Hn & Hid & Hlt)];
        [left; exact Hs|].
      right. repeat split; [left | exact Hn | lia | lia].
    + right. repeat split; [right; exact Hin | exact Hn | lia | lia].
Qed.

(** What a load of a name that is not cached does to the cache: the
    entries that were there stay; what is new is the module of the name,
    when the load succeeds, and the modules its source imported; each new
    module sits under its own name with an identity of its own. *)
Lemma load_module_touch fullname s :
  sys_modules s !! fullname = None ->
  next_id s <= next_id (snd (load_module W fullname s))
  /\ (forall k m0, sys_modules s !! k = Some m0 ->
        sys_modules (snd (load_module W fullname s)) !! k = Some m0)
  /\ (forall k m,
        sys_modules (snd (load_module W fullname s)) !! k = Some m ->
        sys_modules s !! k = Some m
        \/ (mod_name m = k /\ next_id s <= mod_id m
            /\ mod_id m < next_id (snd (load_module W fullname s))
            /\ (k <> fullname ->
                next_id s < mod_id m
                /\ exists f,
                     fn (fs s) (sys_path s) fullname = Some f
                     /\ k ∈ import_names
                            (source_imports W fullname f (host s)))))
  /\ match fst (load_module W fullname s) with
     | Ok m =>
         mod_name m = fullname /\ mod_id m = next_id s
         /\ sys_modules (snd (load_module W fullname s)) !! fullname
            = Some m
         /\ next_id s < next_id (snd (load_module W fullname s))
     | Raise e =>
         sys_modules (snd (load_module W fullname s)) !! fullname = None
     end.
Proof.
  intros Hc. rewrite (load_module_uncached _ _ Hc). cbv zeta.
  destruct (fn (fs s) (sys_path s) fullname) as [f|] eqn:Hfn.
  2:{ simpl. split; [lia|]. split; [auto|]. split; auto. }
  destruct (str_endswith f ".py").
  2:{ simpl. split; [lia|]. split.
      { intros k m0 Hk. rewrite lookup_insert_ne; [exact Hk|].
        intros ->. congruence. }
      split.
      { intros k m. destruct (decide (fullname = k)) as [<-|Hne].
        - rewrite lookup_insert_eq. intros [= <-]. right. simpl.
          split; [reflexivity|]. split; [lia|]. split; [lia|].
          intros Hk. congruence.
        - rewrite lookup_insert_ne by exact Hne. auto. }
      rewrite lookup_insert_eq. repeat split; lia. }
  unfold load_source. cbn [record host next_id journal].
  destruct (exec_source W fullname f (host s)) as [h r].
  set (m := Module (next_id s) fullname None
              match r with inr members => members | inl _ => [] end).
  set (s1 := cache_module fullname m
               (set_host h (record (Exec fullname f)
                              (record (Resolve fullname) s)))).
  set (imports := source_imports W fullname f (host s)).
  destruct (cache_imports_spec imports s1) as (Hnext & Hkeep & Hnew).
  assert (Hm : sys_modules (cache_imports imports s1) !! fullname = Some m).
  { apply Hkeep. simpl. apply lookup_insert_eq. }
  assert (Hold : forall k m0, sys_modules s !! k = Some m0 ->
            k <> fullname
            /\ sys_modules (cache_imports imports s1) !! k = Some m0).
  { intros k m0 Hk. assert (k <> fullname) by (intros ->; congruence).
    split; [assumption|]. apply Hkeep. simpl.
    rewrite lookup_insert_ne by congruence. exact Hk. }
  assert (Hfresh : forall k m',
            sys_modules (cache_imports imports s1) !! k = Some m' ->
            sys_modules s !! k = Some m'
            \/ (mod_name m' = k /\ next_id s <= mod_id m'
                /\ mod_id m' < next_id (cache_imports imports s1)
                /\ (k <> fullname ->
                    next_id s < mod_id m'
                    /\ exists f0, Some f = Some f0
                         /\ k ∈ import_names
                                (source_imports W fullname f0 (host s))))).
  { intros k m' Hk. simpl in Hnext.
    destruct (Hnew k m' Hk) as [Hs1 | (Hin & Hn & Hlo & Hhi)].
    - simpl in Hs1. destruct (decide (fullname = k)) as [<-|Hne].
      + rewrite lookup_insert_eq in Hs1. injection Hs1 as <-. right.
        simpl. split; [reflexivity|]. split; [lia|]. split; [lia|].
        intros Hk'. congruence.
      + rewrite lookup_insert_ne in Hs1 by exact Hne. auto.
    - simpl in Hlo. right. split; [exact Hn|]. split; [lia|].
      split; [lia|]. intros _. split; [lia|]. exists f. auto. }
  simpl in Hnext.
  destruct r as [e|members]; cbn [fst snd].
  - simpl. split; [lia|]. split.
    { intros k m0 Hk. destruct (Hold k m0 Hk) as [Hne Hin].
      rewrite lookup_delete_ne by congruence. exact Hin. }
    split; [|apply lookup_delete_eq].
    intros k m' Hk. destruct (decide (fullname = k)) as [<-|Hne].
    + rewrite lookup_delete_eq in Hk. discriminate.
    + rewrite lookup_delete_ne in Hk by exact Hne. apply Hfresh. exact Hk.
  - split; [lia|]. split; [intros k m0 Hk; apply (Hold k m0 Hk)|].
    split; [exact Hfresh|]. repeat split; [exact Hm | lia].
Qed.

(** A load that succeeds leaves the module it returns in the cache. *)
Lemma load_module_caches fullname s m s' :
  load_module W fullname s = (Ok m, s') ->
  sys_modules s' !! fullname = Some m.
Proof.
  destruct (sys_modules s !! fullname) as [m0|] eqn:Hc.
  - rewrite (load_module_cached _ _ _ Hc). intros [= <- <-]. exact Hc.
  - intros Hload. pose proof (load_module_touch _ _ Hc) as (_ & _ & _ & H).
    rewrite Hload in H. simpl in H. apply H.
Qed.

(** C6, as amended: a name that is not cached and resolves to a location
    without the source extension, or to a source file that runs without
    raising, is loaded at the first call, which puts the new module in the
    cache under that name beside what was there; from then on, in every
    state whose cache still holds it, a load returns that same module and
    leaves the state as it is (nothing is resolved, nothing is run).
    When the source file raises, the load raises the same exception and
    the name is not in the cache afterwards, while what was cached
    before, and what the file had imported, stays. *)
Theorem load_module_load_once fullname s (f : string) :
  sys_modules s !! fullname = None ->
  fn (fs s) (sys_path s) fullname = Some f ->
  (str_endswith f ".py" = false
   \/ (exists members,
         snd (exec_source W fullname f (host s)) = inr members) ->
   exists m s',
     load_module W fullname s = (Ok m, s')
     /\ mod_id m = next_id s
     /\ sys_modules s' !! fullname = Some m
     /\ (forall k m0, sys_modules s !! k = Some m0 ->
                      sys_modules s' !! k = Some m0)
     /\ load_module W fullname s' = (Ok m, s')
     /\ forall t, sys_modules t !! fullname = Some m ->
                  load_module W fullname t = (Ok m, t))
  /\ (forall e : exn,
        str_endswith f ".py" = true ->
        snd (exec_source W fullname f (host s)) = inl e ->
        exists s',
          load_module W fullname s = (Raise e, s')
          /\ sys_modules s' !! fullname = None
          /\ (forall k m0, sys_modules s !! k = Some m0 ->
                           sys_modules s' !! k = Some m0)
          /\ forall k, k ∈ import_names
                              (source_imports W fullname f (host s)) ->
                       k <> fullname ->
                       is_Some (sys_modules s' !! k)).
Proof.
  intros Hc Hfn.
  pose proof (load_module_touch _ _ Hc) as (_ & Hkeep & _ & Hres).
  split.
  - intros Hruns.
    assert (Hok : exists m, fst (load_module W fullname s) = Ok m).
    { rewrite (load_module_uncached _ _ Hc), Hfn. cbv zeta.
      destruct (str_endswith f ".py") eqn:Hext; [|simpl; eauto].
      destruct Hruns as [[=] | [members Hrun]].
      unfold load_source. cbn [record host].
      destruct (exec_source W fullname f (host s)) as [h r].
      simpl in Hrun. subst r. simpl. eauto. }
    destruct Hok as [m Hok]. rewrite Hok in Hres.
    destruct Hres as (_ & Hid & Hm & _).
    exists m, (snd (load_module W fullname s)).
    split; [rewrite <- Hok; destruct (load_module W fullname s); reflexivity|].
    repeat split; try assumption.
    + apply load_module_cached. exact Hm.
    + intros t. apply load_module_cached.
  - intros e Hext Hrun.
    assert (Hraise : fst (load_module W fullname s) = Raise e
              /\ forall k, k ∈ import_names
                                 (source_imports W fullname f (host s)) ->
                           k <> fullname ->
                           is_Some (sys_modules
                                      (snd (load_module W fullname s)) !! k)).
    { rewrite (load_module_uncached _ _ Hc), Hfn, Hext. cbv zeta.
      unfold load_source. cbn [record host next_id].
      destruct (exec_source W fullname f (host s)) as [h r].
      simpl in Hrun. subst r. cbn [fst snd]. split; [reflexivity|].
      intros k Hin Hne. simpl. rewrite lookup_delete_ne by congruence.
      clear - Hin.
      set (s1 := cache_module fullname _ _). clearbody s1. revert s1.
      induction (source_imports W fullname f (host s))
        as [|[[name path] members] rest IH]; intros s1.
      - apply elem_of_nil in Hin. contradiction.
      - cbn [cache_imports]. unfold import_names in Hin. cbn [map fst] in Hin.
        apply elem_of_cons in Hin as [->|Hin]; [|apply IH; exact Hin].
        match goal with |- is_Some (sys_modules (cache_imports _ ?s2) !! _) =>
          assert (Hin2 : is_Some (sys_modules s2 !! name)) end.
        { destruct (sys_modules s1 !! name) eqn:E; [rewrite E; eauto|].
          simpl. rewrite lookup_insert_eq. eauto. }
        destruct Hin2 as [m2 Hm2].
        destruct (cache_imports_spec rest
                    match sys_modules s1 !! name with
                    | Some _ => s1
                    | None =>
                        cache_module name
                          (Module (next_id s1) name path members) s1
                    end) as (_ & Hk & _).
        rewrite (Hk _ _ Hm2). eauto. }
    destruct Hraise as [Hraise Himports]. rewrite Hraise in Hres.
    exists (snd (load_module W fullname s)).
    split; [rewrite <- Hraise; destruct (load_module W fullname s);
            reflexivity|].
    auto.
Qed.

(** C10, as amended: for a name that is not cached, [load_module] returns
    a new namespace module when [fn] finds a location without the source
    extension, runs the file when [fn] finds one with it (returning the
    new module, or raising what the file raised), and raises an
    [AttributeError] when [fn] finds nothing. *)
Theorem load_module_outcomes fullname s :
  sys_modules s !! fullname = None ->
  match fn (fs s) (sys_path s) fullname with
  | None => fst (load_module W fullname s) = Raise AttributeError
  | Some f =>
      if str_endswith f ".py" then
        match snd (exec_source W fullname f (host s)) with
        | inl e => fst (load_module W fullname s) = Raise e
        | inr members =>
            fst (load_module W fullname s) =
            Ok (Module (next_id s) fullname None members)
        end
      else
        fst (load_module W fullname s) =
        Ok (new_module (next_id s) fullname f)
  end.
Proof.
  intros Hc. rewrite (load_module_uncached _ _ Hc). simpl.
  destruct (fn (fs s) (sys_path s) fullname) as [f|]; [|reflexivity].
  destruct (str_endswith f ".py"); [|reflexivity].
  unfold load_source. cbn [record host next_id].
  destruct (exec_source W fullname f (host s)) as [h [e|members]]; reflexivity.
Qed.

(** The hook declines exactly the names [fn] does not find, so through the
    import machinery the loader only runs on names that resolve (as long
    as the filesystem stays as it is between the two calls). *)
Lemma find_module_iff fullname s :
  find_module fullname s = Some myloader <->
  exists f, fn (fs s) (sys_path s) fullname = Some f.
Proof.
  unfold find_module. destruct (fn (fs s) (sys_path s) fullname) as [f|].
  - split; eauto.
  - split; [discriminate | intros [f [=]]].
Qed.

(** The loader and the resolver agree on what a location is: a name
    answered by the bare path becomes a namespace module, a name answered
    by the path with the extension is run as a source file. *)
Lemma load_module_by_test fullname s (pre : list string) (p : string)
    (post : list string) (f : string) :
  sys_modules s !! fullname = None ->
  sys_path s = pre ++ p :: post ->
  Forall (misses (fs s) (dotted_to_path fullname)) pre ->
  hits (fs s) (dotted_to_path fullname) p f ->
  load_module W fullname s =
  if os_path_exists (fs s) (os_path_join p (dotted_to_path fullname))
  then (Ok (new_module (next_id s) fullname f),
        cache_module fullname (new_module (next_id s) fullname f)
          (record (Resolve fullname) s))
  else load_source W fullname f (record (Resolve fullname) s).
Proof.
  intros Hc Hpath Hpre Hhit.
  assert (Hfn : fn (fs s) (sys_path s) fullname = Some f).
  { rewrite Hpath. unfold fn. apply fn_roots_Some. eauto 10. }
  unfold load_module. rewrite Hc. simpl. rewrite Hfn.
  rewrite (hit_extension _ _ _ _ Hhit), negb_involutive.
  destruct (os_path_exists (fs s) (os_path_join p (dotted_to_path fullname)));
    reflexivity.
Qed.

(** Through the hook a name that does not resolve is declined, and the
    loader is not reached. *)
Lemma hook_import_run fullname s :
  sys_modules s !! fullname = None ->
  hook_import W fullname s =
  match fn (fs s) (sys_path s) fullname with
  | Some _ => load_module W fullname s
  | None => (Raise ImportError, s)
  end.
Proof.
  intros Hc. unfold hook_import, find_module. rewrite Hc.
  destruct (fn (fs s) (sys_path s) fullname); reflexivity.
Qed.

End LoaderProperties.

Lemma load_module_load_once_witness :
  (exists m s',
     load_module site_interp "hello" site_state = (Ok m, s')
     /\ mod_id m = 1
     /\ sys_modules s' !! "hello" = Some m
     /\ load_module site_interp "hello" s' = (Ok m, s'))
  /\ (exists s',
        load_module nested_interp "importer" nested_state
        = (Raise (PluginError 4), s')
        /\ sys_modules s' !! "importer" = None
        /\ is_Some (sys_modules s' !! "hello")).
Proof.
  split.
  - destruct (load_module_load_once site_interp "hello" site_state
                "/plugins/hello.py" eq_refl eq_refl) as [Hok _].
    destruct (Hok (or_intror (ex_intro _ hello_members eq_refl)))
      as (m & s' & Hload & Hid & Hm & _ & Hagain & _).
    exists m, s'. auto.
  - destruct (load_module_load_once nested_interp "importer" nested_state
                "/plugins/importer.py" eq_refl eq_refl) as [_ Hfail].
    destruct (Hfail (PluginError 4) eq_refl eq_refl)
      as (s' & Hload & Hnone & _ & Himports).
    exists s'. split; [exact Hload|]. split; [exact Hnone|].
    apply Himports; [|discriminate].
    apply (bool_decide_unpack _). reflexivity.
Defined.

(** C6, as stated, fails: [broken] resolves to a source file, yet its first
    load raises and caches nothing, and the next load resolves and runs
    the file again. *)
Lemma load_module_broken_source :
  fn site_fs ["/plugins"] "broken" = Some "/plugins/broken.py"
  /\ fst (load_module site_interp "broken" site_state) = Raise SyntaxError
  /\ sys_modules (snd (load_module site_interp "broken" site_state))
       !! "broken" = None
  /\ journal
       (snd (load_module site_interp "broken"
               (snd (load_module site_interp "broken" site_state)))) =
     [Resolve "broken"; Exec "broken" "/plugins/broken.py";
      Resolve "broken"; Exec "broken" "/plugins/broken.py"].
Proof. repeat split; reflexivity. Qed.

Lemma load_module_outcomes_witness :
  fst (load_module site_interp "missing" site_state) = Raise AttributeError
  /\ fst (load_module site_interp "foo" site_state) =
     Ok (new_module 1 "foo" "/plugins/foo")
  /\ fst (load_module site_interp "hello" site_state) =
     Ok (Module 1 "hello" None hello_members).
Proof.
  split; [|split].
  - exact (load_module_outcomes site_interp "missing" site_state eq_refl).
  - exact (load_module_outcomes site_interp "foo" site_state eq_refl).
  - exact (load_module_outcomes site_interp "hello" site_state eq_refl).
Defined.

(** The loader after the file has gone: [find_module] has answered for
    [hello], the file is removed, and [load_module] then raises the
    [AttributeError]. *)
Example load_module_stale :
  find_module "hello" site_state = Some myloader
  /\ fst (load_module site_interp "hello" (set_fs flat_fs site_state)) =
     Raise AttributeError.
Proof. split; reflexivity. Qed.

(** C10, as stated, fails in its first half: [fn] finds a location for
    [pkg], a directory whose name ends in [.py], and [load_module] raises
    instead of returning a module. *)
Lemma load_module_raises_on_hit :
  fn site_fs ["/plugins"] "pkg" = Some "/plugins/pkg.py"
  /\ fst (load_module site_interp "pkg" site_state) = Raise IOError.
Proof. split; reflexivity. Qed.

(** ** The registrar *)

Section RegistrarProperties.
Context {Host : Type} (W : interp Host).
Implicit Types (s t : state Host) (item : string * pyvalue).

(** *** Members, one at a time *)

Lemma process_item_run item s :
  process_item W item s =
  if decide (type_of (snd item) = type_)
  then match register_item W item s with
       | (Ok _, t) => (Ok tt, t)
       | (Raise e, t) => report_skipped W item e t
       end
  else (Ok tt, s).
Proof.
  unfold process_item. simpl.
  destruct (decide (type_ <> type_of (snd item))) as [Hne|Heq];
    destruct (decide (type_of (snd item) = type_)) as [Ht|Hnt];
    try congruence.
  - reflexivity.
  - unfold try_except.
    destruct (register_item W item s) as [[[]|e] t]; reflexivity.
  - exfalso. apply Heq. congruence.
Qed.

Lemma process_items_unfold item (rest : list (string * pyvalue)) s :
  process_items W (item :: rest) s =
  match process_item W item s with
  | (Ok _, t) => process_items W rest t
  | (Raise e, t) => (Raise e, t)
  end.
Proof. reflexivity. Qed.

Lemma process_items_app (pre post : list (string * pyvalue)) s :
  process_items W (pre ++ post) s =
  match process_items W pre s with
  | (Ok _, t) => process_items W post t
  | (Raise e, t) => (Raise e, t)
  end.
Proof.
  revert s. induction pre as [|item rest IH]; intros s.
  - reflexivity.
  - rewrite <- app_comm_cons, !process_items_unfold.
    destruct (process_item W item s) as [[[]|e] t]; [apply IH | reflexivity].
Qed.

(** When the report of a failing member can be made, the member is
    reported and the loop goes on with the members after it. *)
Lemma process_items_go_on (pre post : list (string * pyvalue)) item s
    (e : exn) :
  fst (process_items W pre s) = Ok tt ->
  type_of (snd item) = type_ ->
  fst (register_item W item (snd (process_items W pre s))) = Raise e ->
  snd (str_raises W (snd item) e
         (host (snd (register_item W item (snd (process_items W pre s))))))
  = None ->
  process_items W (pre ++ item :: post) s =
  process_items W post
    (print (SkippingRegistering (snd item) e)
       (set_host
          (fst (str_raises W (snd item) e
                  (host (snd (register_item W item
                                (snd (process_items W pre s)))))))
          (snd (register_item W item (snd (process_items W pre s)))))).
Proof.
  intros Hpre Htype Hraise Hstr.
  rewrite process_items_app.
  destruct (process_items W pre s) as [[[]|e0] s1]; cbn [fst snd] in *;
    [|discriminate].
  rewrite process_items_unfold, process_item_run.
  rewrite decide_True by assumption.
  destruct (register_item W item s1) as [[[]|e'] t]; cbn [fst snd] in *;
    [discriminate|].
  injection Hraise as ->. unfold report_skipped.
  destruct (str_raises W (snd item) e (host t)) as [h [e2|]];
    cbn [fst snd] in *; [discriminate | reflexivity].
Qed.

(** *** The whole call *)

Lemma load_and_register_run name s :
  load_and_register W name s =
  match import_module W name s with
  | (Ok m, t) => process_items W (getmembers m) t
  | (Raise e, t) => (Raise e, t)
  end.
Proof. reflexivity. Qed.


End RegistrarProperties.

(** C7, where the code departs from it: the constructor of [Failing]
    raises an exception that cannot be formatted; the report of the
    member raises in its turn, inside the outer [try] alone, and the loop
    over the members is left: [Hello], [OnNewOnly] and [Win], which come
    after [Failing] in the module, are never processed.  With the same
    module and an exception that can be formatted all three are. *)
Theorem reload_plugin_abandons_members :
  fst (register_item unprintable_interp ("Failing", Failing_class)
         site_state) = Raise (PluginError 2)
  /\ fst (process_items unprintable_interp hello_members site_state)
     = Raise ValueError
  /\ (let s' := snd (reload_plugin unprintable_interp "hello" site_state) in
      stdout s' = [LoadingPlugin "hello"; Traceback ValueError]
      /\ commands s' = [("App", ApplicationCommandGlue App_class)]
      /\ observers (on_new s') = [])
  /\ (let s' := snd (reload_plugin site_interp "hello" site_state) in
      commands s' =
        [("App", ApplicationCommandGlue App_class);
         ("Hello", TextCommandGlue Hello_class);
         ("Win", WindowCommandGlue Win_class)]
      /\ observers (on_new s') = [on_new_method]).
Proof. repeat split; reflexivity. Qed.

Section ClassificationProperties.
Context {Host : Type} (W : interp Host).
Implicit Types (s t : state Host) (c : pyclass).

Lemma instantiate_run meta c s :
  instantiate W (VClass meta c) s =
  match construct W c (host s) with
  | (h, inl e) => (Raise e, set_host h s)
  | (h, inr inst) => (Ok inst, set_host h s)
  end.
Proof. reflexivity. Qed.

Lemma add_on_load_run (inst : pyobj) s :
  add W inst "on_load" s =
  match lookup_attr W inst "on_load" (host s) with
  | (h, AttrMissing) => (Ok tt, set_host h s)
  | (h, AttrRaises e) => (Raise e, set_host h s)
  | (h, AttrValue v) =>
      if obj_truthy v
      then (Ok tt, set_on_load (Event_iadd (on_load s) v) (set_host h s))
      else (Ok tt, set_host h s)
  end.
Proof.
  unfold add, bind, getattr_or_None.
  destruct (lookup_attr W inst "on_load" (host s)) as [h [|e|v]];
    try reflexivity.
  destruct (obj_truthy v); reflexivity.
Qed.

Lemma add_on_new_run (inst : pyobj) s :
  add W inst "on_new" s =
  match lookup_attr W inst "on_new" (host s) with
  | (h, AttrMissing) => (Ok tt, set_host h s)
  | (h, AttrRaises e) => (Raise e, set_host h s)
  | (h, AttrValue v) =>
      if obj_truthy v
      then (Ok tt, set_on_new (Event_iadd (on_new s) v) (set_host h s))
      else (Ok tt, set_host h s)
  end.
Proof.
  unfold add, bind, getattr_or_None.
  destruct (lookup_attr W inst "on_new" (host s)) as [h [|e|v]];
    try reflexivity.
  destruct (obj_truthy v); reflexivity.
Qed.

Lemma sublime_register_run name (g : glue) s :
  sublime_register W name g s =
  match host_register W name g (host s) with
  | (h, None) => (Ok tt, add_command name g (set_host h s))
  | (h, Some e) => (Raise e, set_host h s)
  end.
Proof. reflexivity. Qed.

(** Wiring a listener never touches the command table. *)
Lemma wire_listener_commands (v : pyvalue) s :
  commands (snd (wire_listener W v s)) = commands s.
Proof.
  unfold wire_listener, bind. destruct v as [meta c|]; [|reflexivity].
  rewrite instantiate_run.
  destruct (construct W c (host s)) as [h [e|inst]]; [reflexivity|].
  rewrite add_on_load_run. simpl.
  destruct (lookup_attr W inst "on_load" h) as [h1 [|e|v]]; simpl;
    try reflexivity.
  - rewrite add_on_new_run. simpl.
    destruct (lookup_attr W inst "on_new" h1) as [h2 [|e|v]]; simpl;
      try reflexivity.
    destruct (obj_truthy v); reflexivity.
  - destruct (obj_truthy v); simpl.
    + rewrite add_on_new_run. simpl.
      destruct (lookup_attr W inst "on_new" h1) as [h2 [|e|v']]; simpl;
        try reflexivity.
      destruct (obj_truthy v'); reflexivity.
    + rewrite add_on_new_run. simpl.
      destruct (lookup_attr W inst "on_new" h1) as [h2 [|e|v']]; simpl;
        try reflexivity.
      destruct (obj_truthy v'); reflexivity.
Qed.

(** The chain of tests of [reload_plugin] is the classification of the
    specification followed by the action of the kind found. *)
Lemma register_item_classify name meta c s :
  register_item W (name, VClass meta c) s =
  match classify c with
  | Some KEventListener => wire_listener W (VClass meta c) s
  | Some KTextCommand =>
      sublime_register W name (TextCommandGlue (VClass meta c)) s
  | Some KWindowCommand =>
      sublime_register W name (WindowCommandGlue (VClass meta c)) s
  | Some KApplicationCommand =>
      sublime_register W name (ApplicationCommandGlue (VClass meta c)) s
  | None => (Ok tt, s)
  end.
Proof.
  unfold register_item, classify, wire_listener. simpl.
  unfold bind at 1. simpl.
  destruct (bool_decide (EventListener ∈ cls_mro c)); [reflexivity|].
  unfold bind at 1. simpl.
  destruct (bool_decide (TextCommand ∈ cls_mro c)); [reflexivity|].
  unfold bind at 1. simpl.
  destruct (bool_decide (WindowCommand ∈ cls_mro c)); [reflexivity|].
  unfold bind at 1. simpl.
  destruct (bool_decide (ApplicationCommand ∈ cls_mro c)); reflexivity.
Qed.

Lemma find_first {A : Type} (f : A -> bool) (l : list A) (x : A) :
  List.find f l = Some x <->
  exists pre post : list A,
    l = pre ++ x :: post
    /\ f x = true
    /\ Forall (fun y => f y = false) pre.
Proof.
  induction l as [|y rest IH]; simpl.
  - split; [discriminate|]. intros (pre & post & Heq & _).
    destruct pre; discriminate.
  - destruct (f y) eqn:Ey.
    + split.
      * intros [= <-]. exists [], rest. repeat split; [assumption|constructor].
      * intros (pre & post & Heq & Hx & Hpre).
        destruct pre as [|z pre]; simpl in Heq; injection Heq as -> Hrest.
        -- reflexivity.
        -- inversion Hpre; subst. congruence.
    + rewrite IH. split.
      * intros (pre & post & -> & Hx & Hpre).
        exists (y :: pre), post. repeat split; [assumption|].
        constructor; assumption.
      * intros (pre & post & Heq & Hx & Hpre).
        destruct pre as [|z pre]; simpl in Heq; injection Heq as -> Hrest.
        -- congruence.
        -- exists pre, post. repeat split; [assumption..|].
           inversion Hpre; assumption.
Qed.

(** The classification picks the first kind of the fixed order whose base
    class is among the ancestors. *)
Lemma classify_first c (k : ExtensionKind) :
  classify c = Some k <->
  exists earlier later : list ExtensionKind,
    taxonomy_order = earlier ++ k :: later
    /\ kind_base k ∈ cls_mro c
    /\ Forall (fun k' => kind_base k' ∉ cls_mro c) earlier.
Proof.
  unfold classify. rewrite find_first.
  split; intros (earlier & later & Heq & Hk & Hearlier);
    exists earlier, later; repeat split; try assumption.
  - apply bool_decide_eq_true in Hk. exact Hk.
  - eapply Forall_impl; [exact Hearlier|]. simpl.
    intros k' Hk'. apply bool_decide_eq_false in Hk'. exact Hk'.
  - apply bool_decide_eq_true. exact Hk.
  - eapply Forall_impl; [exact Hearlier|]. simpl.
    intros k' Hk'. apply bool_decide_eq_false. exact Hk'.
Qed.

Lemma classify_listener_wins c :
  EventListener ∈ cls_mro c -> classify c = Some KEventListener.
Proof.
  intros Hin. unfold classify. simpl.
  rewrite bool_decide_eq_true_2 by assumption. reflexivity.
Qed.

(** C2: the type of a member is classified by the first kind, in the
    order listener, text command, window command, application command,
    whose base class it derives from, and only the branch of that kind
    runs: a listener type is wired and leaves the command table alone,
    even when it also derives from a command class; a command type is
    registered once, under the wrapper of its kind, and leaves both
    channels alone; a type of no kind changes nothing. *)
Theorem register_item_one_branch name meta c s :
  let v := VClass meta c in
  let r := register_item W (name, v) s in
  (forall k : ExtensionKind,
     classify c = Some k <->
     exists earlier later : list ExtensionKind,
       taxonomy_order = earlier ++ k :: later
       /\ kind_base k ∈ cls_mro c
       /\ Forall (fun k' => kind_base k' ∉ cls_mro c) earlier)
  /\ match classify c with
     | None => r = (Ok tt, s)
     | Some k =>
         match kind_glue k v with
         | None => r = wire_listener W v s /\ commands (snd r) = commands s
         | Some g =>
             r = sublime_register W name g s
             /\ on_load (snd r) = on_load s
             /\ on_new (snd r) = on_new s
             /\ commands (snd r) =
                match snd (host_register W name g (host s)) with
                | None => commands s ++ [(name, g)]
                | Some _ => commands s
                end
         end
     end.
Proof.
  intros v r. split; [intros k; apply classify_first|].
  unfold r, v. rewrite register_item_classify.
  destruct (classify c) as [[]|]; simpl.
  - split; [reflexivity | apply wire_listener_commands].
  - rewrite sublime_register_run.
    destruct (host_register W name _ (host s)) as [h [e|]]; simpl; auto.
  - rewrite sublime_register_run.
    destruct (host_register W name _ (host s)) as [h [e|]]; simpl; auto.
  - rewrite sublime_register_run.
    destruct (host_register W name _ (host s)) as [h [e|]]; simpl; auto.
  - reflexivity.
Qed.

(** What the listener branch leaves in the two channels. *)
Lemma wire_listener_channels meta c s :
  let s' := snd (wire_listener W (VClass meta c) s) in
  let built := construct W c (host s) in
  match snd built with
  | inl _ => on_load s' = on_load s /\ on_new s' = on_new s
  | inr inst =>
      let load_hook := lookup_attr W inst "on_load" (fst built) in
      let new_hook := lookup_attr W inst "on_new" (fst load_hook) in
      observers (on_load s') = observers (on_load s) ++ wired (snd load_hook)
      /\ match snd load_hook with
         | AttrRaises _ => on_new s' = on_new s
         | _ =>
             observers (on_new s') =
             observers (on_new s) ++ wired (snd new_hook)
         end
  end.
Proof.
  unfold wire_listener, bind. rewrite instantiate_run.
  destruct (construct W c (host s)) as [h [e|inst]]; simpl; [auto|].
  rewrite add_on_load_run. simpl.
  destruct (lookup_attr W inst "on_load" h) as [h1 [|e|v]]; simpl.
  - rewrite add_on_new_run. simpl.
    destruct (lookup_attr W inst "on_new" h1) as [h2 [|e|v]]; simpl;
      rewrite ?app_nil_r; auto.
    destruct (obj_truthy v); simpl; rewrite ?app_nil_r; auto.
  - rewrite app_nil_r. auto.
  - destruct (obj_truthy v); simpl; rewrite add_on_new_run; simpl;
      destruct (lookup_attr W inst "on_new" h1) as [h2 [|e|v']]; simpl;
      rewrite ?app_nil_r; auto;
      destruct (obj_truthy v'); simpl; rewrite ?app_nil_r; auto.
Qed.

(** C8, as amended: for a listener type whose constructor returns, the
    value found under [on_load] is appended to the channel [on_load] when
    it is true in a condition, callable or not, and nothing is appended
    when the attribute is missing or false; then the same for [on_new],
    unless reading [on_load] raised, in which case [on_new] is not read
    and nothing is appended to it.  Firing a channel afterwards, when
    its observers leave the channels alone while they are called, runs
    what it held before followed by what was appended: a listener with
    [on_new] only is run once more by [on_new] and not by [on_load]. *)
Theorem listener_hooks_wired name meta c s :
  EventListener ∈ cls_mro c ->
  let s' := snd (register_item W (name, VClass meta c) s) in
  let built := construct W c (host s) in
  match snd built with
  | inl _ => on_load s' = on_load s /\ on_new s' = on_new s
  | inr inst =>
      let load_hook := lookup_attr W inst "on_load" (fst built) in
      let new_hook := lookup_attr W inst "on_new" (fst load_hook) in
      observers (on_load s') = observers (on_load s) ++ wired (snd load_hook)
      /\ (forall x : args,
            (forall o, o ∈ observers (on_load s') -> leaves_channels W o x) ->
            exists t : state Host,
              Event_call W (length (observers (on_load s'))) ch_on_load x s'
              = Some (Ok tt, t)
              /\ host t =
                 fst (run_observers W
                        (observers (on_load s) ++ wired (snd load_hook)) x
                        (host s')))
      /\ match snd load_hook with
         | AttrRaises _ => on_new s' = on_new s
         | _ =>
             observers (on_new s') =
             observers (on_new s) ++ wired (snd new_hook)
             /\ forall x : args,
                  (forall o, o ∈ observers (on_new s') ->
                     leaves_channels W o x) ->
                  exists t : state Host,
                    Event_call W (length (observers (on_new s'))) ch_on_new
                      x s' = Some (Ok tt, t)
                    /\ host t =
                       fst (run_observers W
                              (observers (on_new s) ++ wired (snd new_hook))
                              x (host s'))
         end
  end.
Proof.
  intros Hsub s' built.
  assert (Hfire : forall (ch : channel) (x : args),
            (forall o, o ∈ observers (get_channel ch s') ->
               leaves_channels W o x) ->
            exists t : state Host,
              Event_call W (length (observers (get_channel ch s'))) ch x s'
              = Some (Ok tt, t)
              /\ host t =
                 fst (run_observers W (observers (get_channel ch s')) x
                        (host s'))).
  { intros ch x Hall.
    destruct (Event_call_runs W ch x s' Hall) as (t & Hrun & Hhost & _).
    eauto. }
  pose proof (wire_listener_channels meta c s) as Hch. cbv zeta in Hch.
  assert (Hs' : s' = snd (wire_listener W (VClass meta c) s)).
  { unfold s'.
    rewrite register_item_classify, (classify_listener_wins _ Hsub).
    reflexivity. }
  rewrite <- Hs' in Hch. fold built in Hch.
  destruct (snd built) as [e|inst]; [exact Hch|].
  destruct Hch as [Hload Hnew]. split; [exact Hload|]. split.
  - intros x Hall. rewrite <- Hload. apply (Hfire ch_on_load x Hall).
  - destruct (snd (lookup_attr W inst "on_load" (fst built)));
      try exact Hnew.
    + split; [exact Hnew|]. intros x Hall. rewrite <- Hnew.
      apply (Hfire ch_on_new x Hall).
    + split; [exact Hnew|]. intros x Hall. rewrite <- Hnew.
      apply (Hfire ch_on_new x Hall).
Qed.

End ClassificationProperties.

(** *** The plugin [hello] *)

Lemma listener_hooks_wired_witness :
  EventListener ∈ [UserClass 3; EventListener; object_]
  /\ let s' := snd (register_item logging_interp
                      ("OnNewOnly", OnNewOnly_class)
                      (logging_state [] [])) in
     observers (on_load s') = []
     /\ observers (on_new s') = [on_new_method]
     /\ (exists t : state (list pyobj),
           Event_call logging_interp 1 ch_on_new [] s' = Some (Ok tt, t)
           /\ host t = [on_new_method])
     /\ (exists t : state (list pyobj),
           Event_call logging_interp 0 ch_on_load [] s' = Some (Ok tt, t)
           /\ host t = []).
Proof.
  assert (Hsub : EventListener ∈ [UserClass 3; EventListener; object_])
    by (apply (bool_decide_unpack _); reflexivity).
  split; [exact Hsub|].
  pose proof (listener_hooks_wired logging_interp "OnNewOnly" type_
                (PyClass (UserClass 3) [UserClass 3; EventListener; object_])
                (logging_state [] []) Hsub) as Hw.
  simpl in Hw. destruct Hw as (Hload & Hfire_load & Hnew & Hfire_new).
  split; [exact Hload|]. split; [exact Hnew|]. split.
  - apply (Hfire_new []). intros o Hin h chans.
    apply list_elem_of_singleton in Hin as ->. reflexivity.
  - apply (Hfire_load []). intros o Hin. apply elem_of_nil in Hin.
    contradiction.
Defined.

(** C8, as stated, fails.  The instance of [Label] has a string under
    [on_load]; it cannot be called, and it is appended to the channel all
    the same.  The instance of [Moody] has a method [on_new], which can
    be called, and it is not appended: reading [on_load] raised before.
    And a listener with [on_new] only, wired to a channel [on_new] that
    holds [leaver] before it, is not called when the channel fires:
    [leaver] takes itself off the list while it is called, and the list
    is at its end at the next turn. *)
Lemma truthy_attribute_is_wired :
  observers
    (on_load (snd (register_item site_interp ("Label", Label_class)
                     site_state))) = [a_string]
  /\ obj_callable a_string = false
  /\ (lookup_attr flaky_interp (PyObj 110 true false) "on_new" tt
      = (tt, AttrValue on_new_method)
      /\ obj_callable on_new_method = true
      /\ register_item flaky_interp ("Moody", Moody_class) site_state
         = (Raise (PluginError 10), site_state))
  /\ (let s' := snd (register_item logging_interp
                       ("OnNewOnly", OnNewOnly_class)
                       (logging_state [] [leaver])) in
      observers (on_new s') = [leaver; on_new_method]
      /\ exists t : state (list pyobj),
           Event_call logging_interp 2 ch_on_new [] s' = Some (Ok tt, t)
           /\ host t = [leaver]).
Proof.
  split; [reflexivity|]. split; [reflexivity|].
  split; [repeat split; reflexivity|]. split; [reflexivity|].
  set (r := Event_call _ _ _ _ _). vm_compute in r. subst r.
  eexists. split; reflexivity.
Qed.

(** A type that derives from both [EventListener] and [TextCommand] goes
    through the listener branch only. *)
Example register_both :
  classify (PyClass (UserClass 1)
              [UserClass 1; EventListener; TextCommand; Command; object_])
  = Some KEventListener
  /\ commands (snd (register_item site_interp ("Both", Both_class) site_state))
     = [].
Proof. split; reflexivity. Qed.

(** Loading [hello]: the failing listener is reported, the three commands
    are registered, and the listener with [on_new] is wired to [on_new]. *)
Example reload_plugin_hello :
  let s' := snd (reload_plugin site_interp "hello" site_state) in
  fst (reload_plugin site_interp "hello" site_state) = Ok tt
  /\ stdout s' =
     [LoadingPlugin "hello";
      SkippingRegistering Failing_class (PluginError 2)]
  /\ commands s' =
     [("App", ApplicationCommandGlue App_class);
      ("Hello", TextCommandGlue Hello_class);
      ("Win", WindowCommandGlue Win_class)]
  /\ observers (on_load s') = []
  /\ observers (on_new s') = [on_new_method].
Proof. repeat split; reflexivity. Qed.

(** Loading what cannot be loaded prints a traceback and returns. *)
Example reload_plugin_failures :
  reload_plugin site_interp "missing" site_state =
  (Ok tt,
   print (Traceback ImportError) (print (LoadingPlugin "missing") site_state))
  /\ stdout (snd (reload_plugin site_interp "broken" site_state)) =
     [LoadingPlugin "broken"; Traceback SyntaxError]
  /\ fst (reload_plugin site_interp "broken" site_state) = Ok tt.
Proof. repeat split; reflexivity. Qed.

(** * Further properties *)

(** ** More on the resolver *)

Lemma dotted_to_path_eq (fullname : string) :
  dotted_to_path fullname = replace_dots fullname.
Proof.
  unfold dotted_to_path.
  induction fullname as [|c rest IH]; [reflexivity|].
  destruct (str_split_dotless rest) as [Hne _].
  cbn [str_split replace_dots].
  destruct (Ascii.eqb c ".").
  - destruct (str_split "." rest) as [|w ws]; [congruence|].
    rewrite <- IH. reflexivity.
  - destruct (str_split "." rest) as [|w ws]; [congruence|].
    rewrite <- IH. destruct ws; reflexivity.
Qed.

Lemma replace_dots_length (s : string) :
  String.length (replace_dots s) = String.length s.
Proof. induction s as [|c rest IH]; simpl; congruence. Qed.

(** X1: splitting on dots and joining with the separator turns every dot
    of the name into a separator and changes nothing else: empty segments
    are kept, and the path is as long as the name. *)
Theorem dotted_to_path_replaces_dots (fullname : string) :
  dotted_to_path fullname = replace_dots fullname
  /\ String.length (dotted_to_path fullname) = String.length fullname.
Proof.
  split; [apply dotted_to_path_eq|].
  rewrite dotted_to_path_eq. apply replace_dots_length.
Qed.

Lemma fn_roots_absolute fs (roots : list string) (q : string) :
  fn_roots fs roots (String "/" q) =
  match roots with
  | [] => None
  | _ :: _ =>
      if os_path_exists fs (String "/" q) then Some (String "/" q)
      else if os_path_exists fs (String "/" q +:+ ".py")
           then Some (String "/" q +:+ ".py")
           else None
  end.
Proof.
  induction roots as [|p rest IH]; [reflexivity|].
  cbn [fn_roots].
  assert (Hjoin : os_path_join p (String "/" q) = String "/" q)
    by (unfold os_path_join, str_startswith; destruct q; reflexivity).
  rewrite Hjoin.
  destruct (os_path_exists fs (String "/" q)) eqn:E1; [reflexivity|].
  destruct (os_path_exists fs (String "/" q +:+ ".py")) eqn:E2;
    [reflexivity|].
  rewrite IH. destruct rest; reflexivity.
Qed.

(** X2: a name that starts with a dot is not looked up under the roots:
    its path starts with the separator, [os.path.join] drops the root, and
    every root probes the same absolute path. *)
Theorem fn_leading_dot_ignores_roots fs (p : string) (roots : list string)
    (rest : string) :
  let f := String "/" (dotted_to_path rest) in
  fn fs (p :: roots) (String "." rest) =
  if os_path_exists fs f then Some f
  else if os_path_exists fs (f +:+ ".py") then Some (f +:+ ".py")
  else None.
Proof.
  intros f. unfold fn.
  assert (Hpath : dotted_to_path (String "." rest) = f).
  { unfold f. rewrite !dotted_to_path_eq. reflexivity. }
  rewrite Hpath. unfold f. rewrite fn_roots_absolute. reflexivity.
Qed.

(** X3: what [fn] returns exists, and is the bare path or the path with
    the extension of the name under one of the roots. *)
Theorem fn_returns_existing_path fs (roots : list string)
    (fullname f : string) :
  fn fs roots fullname = Some f ->
  os_path_exists fs f = true
  /\ exists p : string,
       p ∈ roots
       /\ (f = os_path_join p (dotted_to_path fullname)
           \/ f = os_path_join p (dotted_to_path fullname) +:+ ".py").
Proof.
  unfold fn. intros Hfn.
  apply fn_roots_Some in Hfn as (pre & p & post & -> & _ & Hhit).
  assert (Hin : p ∈ pre ++ p :: post)
    by (apply elem_of_app; right; constructor).
  destruct Hhit as [[Hex ->] | (_ & Hex & ->)]; split; eauto.
Qed.

Lemma fn_roots_app fs (r1 r2 : list string) (paths : string) :
  fn_roots fs (r1 ++ r2) paths =
  match fn_roots fs r1 paths with
  | Some f => Some f
  | None => fn_roots fs r2 paths
  end.
Proof.
  induction r1 as [|p rest IH]; [reflexivity|].
  cbn [app fn_roots].
  destruct (os_path_exists fs (os_path_join p paths)); [reflexivity|].
  destruct (os_path_exists fs (os_path_join p paths +:+ ".py"));
    [reflexivity|].
  exact IH.
Qed.

(** X4: searching two lists of roots one after the other is searching the
    first and, only when it finds nothing, the second. *)
Theorem fn_roots_append fs (r1 r2 : list string) (fullname : string) :
  fn fs (r1 ++ r2) fullname =
  match fn fs r1 fullname with
  | Some f => Some f
  | None => fn fs r2 fullname
  end.
Proof. apply fn_roots_app. Qed.

(** X5: the suffix of a location tells which test found it: it ends in
    [.py] exactly when the bare path was absent under the answering root
    and the path with the extension was taken. *)
Theorem fn_extension_tells_test fs (roots : list string)
    (fullname f : string) :
  fn fs roots fullname = Some f ->
  exists p : string,
    p ∈ roots
    /\ if str_endswith f ".py"
       then os_path_exists fs (os_path_join p (dotted_to_path fullname))
            = false
            /\ f = os_path_join p (dotted_to_path fullname) +:+ ".py"
       else f = os_path_join p (dotted_to_path fullname).
Proof.
  unfold fn. intros Hfn.
  apply fn_roots_Some in Hfn as (pre & p & post & -> & _ & Hhit).
  exists p. split; [apply elem_of_app; right; constructor|].
  rewrite (hit_extension _ _ _ _ Hhit).
  destruct Hhit as [[Hex ->] | (Hno & _ & ->)].
  - rewrite Hex. reflexivity.
  - rewrite Hno. split; reflexivity.
Qed.

Lemma fn_returns_existing_path_witness :
  os_path_exists site_fs "/plugins/hello.py" = true
  /\ exists p : string,
       p ∈ ["/plugins"]
       /\ ("/plugins/hello.py" = os_path_join p (dotted_to_path "hello")
           \/ "/plugins/hello.py"
              = os_path_join p (dotted_to_path "hello") +:+ ".py").
Proof.
  exact (fn_returns_existing_path site_fs ["/plugins"] "hello"
           "/plugins/hello.py" eq_refl).
Defined.

Lemma fn_extension_tells_test_witness :
  exists p : string,
    p ∈ ["/plugins"]
    /\ os_path_exists site_fs (os_path_join p (dotted_to_path "hello"))
       = false
    /\ "/plugins/hello.py" = os_path_join p (dotted_to_path "hello") +:+ ".py".
Proof.
  exact (fn_extension_tells_test site_fs ["/plugins"] "hello"
           "/plugins/hello.py" eq_refl).
Defined.

(** ** More on event channels *)

Lemma list_remove_snoc_fresh (l : list pyobj) (o : pyobj) :
  o ∉ l -> list_remove (l ++ [o]) o = Some l.
Proof.
  intros Hfresh. apply list_remove_Some. exists l, [].
  rewrite app_nil_r. auto.
Qed.

(** X6: subscribing an observer the channel does not hold and then
    unsubscribing it gives the channel back. *)
Theorem Event_isub_iadd_fresh (self : Event) (o : pyobj) :
  o ∉ observers self ->
  Event_isub (Event_iadd self o) o = inr self.
Proof.
  intros Hfresh. unfold Event_isub, Event_iadd. simpl.
  rewrite (list_remove_snoc_fresh _ _ Hfresh). destruct self; reflexivity.
Qed.

Lemma Event_isub_iadd_fresh_witness :
  (obs1 ∉ [obs2; a_string])
  /\ Event_isub (Event_iadd (MkEvent [obs2; a_string]) obs1) obs1 =
     inr (MkEvent [obs2; a_string]).
Proof.
  assert (Hfresh : obs1 ∉ observers (MkEvent [obs2; a_string]))
    by (apply (bool_decide_unpack _); reflexivity).
  split; [exact Hfresh|].
  exact (Event_isub_iadd_fresh (MkEvent [obs2; a_string]) obs1 Hfresh).
Defined.

(** X7: unsubscribing right after subscribing never fails and leaves as
    many subscriptions of each observer as before; but on a channel that
    already held the observer it is the oldest subscription that goes:
    the observer is now called last. *)
Theorem Event_isub_iadd_oldest (self : Event) (o : pyobj) :
  exists self' : Event,
    Event_isub (Event_iadd self o) o = inr self'
    /\ observers self' ≡ₚ observers self
    /\ (o ∈ observers self -> last (observers self') = Some o).
Proof.
  unfold Event_isub, Event_iadd. simpl.
  destruct (decide (o ∈ observers self)) as [Hin|Hnot].
  - apply list_elem_of_split_l in Hin as (pre & post & Heq & Hpre).
    assert (Hrm : list_remove (observers self ++ [o]) o =
                  Some (pre ++ post ++ [o])).
    { apply list_remove_Some. exists pre, (post ++ [o]).
      rewrite Heq, <- app_assoc. auto. }
    rewrite Hrm. eexists. split; [reflexivity|]. simpl. split.
    + rewrite Heq. rewrite (Permutation_app_comm post [o]). reflexivity.
    + intros _. rewrite app_assoc. apply last_snoc.
  - rewrite (list_remove_snoc_fresh _ _ Hnot). eexists.
    split; [reflexivity|]. split; [reflexivity|]. intros Hin. contradiction.
Qed.

(** X8: a successful unsubscription takes one subscription of that
    observer away and nothing else: the observers left are the old ones
    in their old order, and the old ones are those left plus the one
    removed. *)
Theorem Event_isub_removes_one (self self' : Event) (o : pyobj) :
  Event_isub self o = inr self' ->
  observers self' `sublist_of` observers self
  /\ observers self ≡ₚ o :: observers self'
  /\ length (observers self) = S (length (observers self')).
Proof.
  unfold Event_isub.
  destruct (list_remove (observers self) o) as [l|] eqn:E; [|discriminate].
  intros [= <-]. simpl.
  apply list_remove_Some in E as (pre & post & -> & _ & ->).
  split; [|split].
  - apply sublist_app; [reflexivity|]. apply sublist_cons. reflexivity.
  - symmetry. apply Permutation_middle.
  - rewrite !length_app. simpl. lia.
Qed.

Lemma Event_isub_removes_one_witness :
  [obs2; obs1] `sublist_of` [obs1; obs2; obs1]
  /\ [obs1; obs2; obs1] ≡ₚ obs1 :: [obs2; obs1]
  /\ length [obs1; obs2; obs1] = S (length [obs2; obs1]).
Proof.
  exact (Event_isub_removes_one (MkEvent [obs1; obs2; obs1])
           (MkEvent [obs2; obs1]) obs1 eq_refl).
Defined.

Section MoreEventProperties.
Context {Host : Type} (W : interp Host).
Implicit Types (s : state Host) (a x : args) (o : pyobj) (c : channel).

Lemma run_observers_app (pre post : list pyobj) a (h : Host) :
  run_observers W (pre ++ post) a h =
  (fst (run_observers W post a (fst (run_observers W pre a h))),
   snd (run_observers W pre a h)
   ++ snd (run_observers W post a (fst (run_observers W pre a h)))).
Proof.
  revert h. induction pre as [|o rest IH]; intros h.
  - simpl. destruct (run_observers W post a h); reflexivity.
  - cbn [app run_observers]. destruct (obj_callable o).
    + destruct (call_object W o a h) as [h' [e|]]; rewrite IH; reflexivity.
    + rewrite IH. reflexivity.
Qed.

(** X9: when the observers leave the channels alone while they are
    called, firing a channel after further subscriptions is firing it as
    it was and then running the new observers in their order, from the
    host and after the output the first firing left. *)
Theorem fire_after_iadd c (os : list pyobj) x s :
  (forall o, o ∈ observers (get_channel c s) ++ os ->
     leaves_channels W o x) ->
  exists t s' : state Host,
    Event_call W (length (observers (get_channel c s))) c x s
    = Some (Ok tt, t)
    /\ Event_call W (length (observers (get_channel c s) ++ os)) c x
         (subscribe_all c os s) = Some (Ok tt, s')
    /\ host s' = fst (run_observers W os x (host t))
    /\ stdout s' = stdout t ++ snd (run_observers W os x (host t)).
Proof.
  intros Hall.
  destruct (subscribe_all_effects c os s) as (Hobs & Hh & Hout & _).
  destruct (Event_call_runs W c x s) as (t & Hrun & Hhost & Hprint).
  { intros o Hin. apply Hall. apply elem_of_app. left. exact Hin. }
  destruct (Event_call_runs W c x (subscribe_all c os s))
    as (s' & Hrun' & Hhost' & Hprint').
  { intros o Hin. apply Hall. rewrite Hobs in Hin. exact Hin. }
  rewrite Hobs, Hh in *. rewrite Hout in Hprint'.
  rewrite run_observers_app in Hhost', Hprint'. simpl in Hhost', Hprint'.
  exists t, s'. split; [exact Hrun|]. split; [exact Hrun'|].
  rewrite Hhost, Hprint, <- app_assoc. auto.
Qed.

Lemma run_observers_quiet (obs : list pyobj) x (h : Host) :
  (forall o, o ∈ obs ->
     obj_callable o = true
     /\ forall h : Host, snd (call_object W o x h) = None) ->
  snd (run_observers W obs x h) = [].
Proof.
  revert h. induction obs as [|o rest IH]; intros h Hall; [reflexivity|].
  cbn [run_observers]. destruct (Hall o) as [Hcall Hquiet]; [constructor|].
  rewrite Hcall. specialize (Hquiet h).
  destruct (call_object W o x h) as [h' [e|]]; [discriminate|].
  apply IH. intros o' Hin. apply Hall. constructor. exact Hin.
Qed.

Lemma Event_call_from_called (fuel : nat) c x :
  forall (i : nat) s (r : result unit) (s' : state Host),
    Event_call_from W fuel c i x s = Some (r, s') ->
    exists called : list pyobj,
      journal s' = journal s ++ map (fun o => Call o x) called
      /\ ((forall o, o ∈ called ->
             obj_callable o = true
             /\ forall h : Host, snd (call_object W o x h) = None) ->
          stdout s' = stdout s).
Proof.
  induction fuel as [|fuel IH]; intros i s r s'; rewrite Event_call_from_eq.
  - destruct (observers (get_channel c s) !! i); [discriminate|].
    intros [= <- <-]. exists []. simpl. rewrite app_nil_r. auto.
  - destruct (observers (get_channel c s) !! i) as [o|].
    + rewrite guarded_invoke. cbn [snd]. intros Hrun.
      destruct (IH _ _ _ _ Hrun) as (called & Hj & Hq).
      exists (o :: called).
      destruct (invoke_effects W o x s) as [Hjs Hs].
      pose proof (invoke_host W o x s) as Hh.
      split.
      * rewrite Hj.
        destruct (invoke W o x s) as [[[]|e] s1]; simpl in *;
          rewrite Hjs, <- app_assoc; reflexivity.
      * intros Hall. destruct (Hall o) as [Hcall Hquiet]; [constructor|].
        rewrite Hcall in Hh. destruct Hh as [_ Hres].
        rewrite (Hquiet (host s)) in Hres.
        rewrite Hq by (intros o' Hin; apply Hall; constructor; exact Hin).
        destruct (invoke W o x s) as [[[]|e] s1]; simpl in *;
          [exact Hs | discriminate].
    + intros [= <- <-]. exists []. simpl. rewrite app_nil_r. auto.
Qed.

(** X10: a firing in which no call raises prints nothing.  Whatever the
    observers do to the channels, a firing that ends has called some
    observers one after the other, and when each of those can be called
    and does not raise, nothing was printed; and when every observer of
    the channel can be called, does not raise and leaves the channels
    alone, the firing does end, returns normally and prints nothing. *)
Theorem fire_quiet c x s :
  (forall (fuel : nat) (r : result unit) (s' : state Host),
     Event_call W fuel c x s = Some (r, s') ->
     exists called : list pyobj,
       journal s' = journal s ++ map (fun o => Call o x) called
       /\ ((forall o, o ∈ called ->
              obj_callable o = true
              /\ forall h : Host, snd (call_object W o x h) = None) ->
           stdout s' = stdout s))
  /\ ((forall o, o ∈ observers (get_channel c s) ->
         obj_callable o = true
         /\ (forall h : Host, snd (call_object W o x h) = None)
         /\ leaves_channels W o x) ->
      exists s' : state Host,
        Event_call W (length (observers (get_channel c s))) c x s
        = Some (Ok tt, s')
        /\ stdout s' = stdout s).
Proof.
  split.
  - intros fuel r s'. apply Event_call_from_called.
  - intros Hall.
    destruct (Event_call_runs W c x s) as (t & Hrun & _ & Hprint).
    { intros o Hin. apply (Hall o Hin). }
    exists t. split; [exact Hrun|].
    rewrite Hprint, run_observers_quiet, app_nil_r; [reflexivity|].
    intros o Hin. destruct (Hall o Hin) as (? & ? & _). auto.
Qed.

Lemma run_observers_tracebacks (obs : list pyobj) x (h : Host) :
  length (snd (run_observers W obs x h)) <= length obs
  /\ Forall (fun l => exists e : exn, l = Traceback e)
       (snd (run_observers W obs x h)).
Proof.
  revert h. induction obs as [|o rest IH]; intros h.
  - simpl. split; [lia | constructor].
  - cbn [run_observers]. destruct (obj_callable o).
    + destruct (call_object W o x h) as [h' [e|]];
        destruct (IH h') as [Hlen Hall]; simpl; split;
        [lia | constructor; eauto | lia | exact Hall].
    + destruct (IH h) as [Hlen Hall]. simpl. split; [lia|].
      constructor; eauto.
Qed.

(** X11: whatever the observers do, a firing that ends returns normally
    and has printed tracebacks and nothing else, at most one for each
    turn of the loop, after what was printed before; and when its
    observers leave the channels alone the firing does end, with at most
    one traceback for each observer of the channel. *)
Theorem fire_prints_tracebacks c x s :
  (forall (fuel : nat) (r : result unit) (s' : state Host),
     Event_call W fuel c x s = Some (r, s') ->
     r = Ok tt
     /\ exists printed : list line,
          stdout s' = stdout s ++ printed
          /\ length printed <= fuel
          /\ Forall (fun l => exists e : exn, l = Traceback e) printed)
  /\ ((forall o, o ∈ observers (get_channel c s) ->
         leaves_channels W o x) ->
      exists (s' : state Host) (printed : list line),
        Event_call W (length (observers (get_channel c s))) c x s
        = Some (Ok tt, s')
        /\ stdout s' = stdout s ++ printed
        /\ length printed <= length (observers (get_channel c s))
        /\ Forall (fun l => exists e : exn, l = Traceback e) printed).
Proof.
  split.
  - intros fuel r s'. apply Event_call_from_prints.
  - intros Hall.
    destruct (Event_call_runs W c x s Hall) as (t & Hrun & _ & Hprint).
    destruct (run_observers_tracebacks (observers (get_channel c s)) x
                (host s)) as [Hlen Htb].
    eauto 10.
Qed.

Lemma run_observers_not_callable (obs : list pyobj) x (h : Host) :
  (forall o, o ∈ obs -> obj_callable o = false) ->
  run_observers W obs x h =
  (h, replicate (length obs) (Traceback TypeError)).
Proof.
  induction obs as [|o rest IH]; intros Hall; [reflexivity|].
  cbn [run_observers]. rewrite (Hall o) by constructor.
  rewrite IH; [reflexivity|].
  intros o' Hin. apply Hall. constructor. exact Hin.
Qed.

(** X12: an observer that cannot be called is accepted by [+=] and costs
    a [TypeError] traceback at each firing; firing a channel of such
    observers returns normally, prints one traceback for each and never
    enters the host. *)
Theorem fire_not_callable c x s :
  (forall o, o ∈ observers (get_channel c s) -> obj_callable o = false) ->
  exists s' : state Host,
    Event_call W (length (observers (get_channel c s))) c x s
    = Some (Ok tt, s')
    /\ stdout s' =
       stdout s
       ++ replicate (length (observers (get_channel c s)))
            (Traceback TypeError)
    /\ host s' = host s.
Proof.
  intros Hall.
  assert (Hrun : Event_call W (length (observers (get_channel c s))) c x s =
                 Some (call_in_turn W (observers (get_channel c s)) x s)).
  { apply Event_call_in_turn. intros o Hin Hcall.
    rewrite (Hall o Hin) in Hcall. discriminate. }
  exists (snd (call_in_turn W (observers (get_channel c s)) x s)).
  destruct (call_in_turn_runs W (observers (get_channel c s)) x s)
    as [Hhost Hprint].
  rewrite (run_observers_not_callable _ x (host s) Hall) in Hhost, Hprint.
  rewrite Hrun. repeat split; try assumption.
  rewrite <- (call_in_turn_returns W (observers (get_channel c s)) x s).
  destruct (call_in_turn W (observers (get_channel c s)) x s); reflexivity.
Qed.

End MoreEventProperties.

Lemma logging_leaves (o : pyobj) (a : args) :
  o <> leaver -> leaves_channels logging_interp o a.
Proof.
  intros Hne h chans. simpl. rewrite decide_False by exact Hne. reflexivity.
Qed.

Lemma fire_after_iadd_witness :
  exists t s' : state (list pyobj),
    Event_call logging_interp 1 ch_on_load [] (logging_state [obs2] [])
    = Some (Ok tt, t)
    /\ Event_call logging_interp 3 ch_on_load []
         (subscribe_all ch_on_load [obs1; obs2] (logging_state [obs2] []))
       = Some (Ok tt, s')
    /\ host t = [obs2]
    /\ host s' = [obs2; obs1; obs2]
    /\ stdout s' = [Traceback (PluginError 1)].
Proof.
  destruct (fire_after_iadd logging_interp ch_on_load [obs1; obs2] []
              (logging_state [obs2] []))
    as (t & s' & Hold & Hnew & Hhost & Hout).
  { intros o Hin. apply logging_leaves. intros ->. simpl in Hin.
    repeat (apply elem_of_cons in Hin as [Hin|Hin]; [discriminate|]).
    apply elem_of_nil in Hin. exact Hin. }
  exists t, s'. split; [exact Hold|]. split; [exact Hnew|].
  assert (Ht : host t = [obs2] /\ stdout t = []).
  { change (Event_call logging_interp 1 ch_on_load []
              (logging_state [obs2] []))
      with (Some (call_in_turn logging_interp [obs2] []
                    (logging_state [obs2] []))) in Hold.
    injection Hold as <-. split; reflexivity. }
  destruct Ht as [Hht Hot]. rewrite Hht in Hhost. rewrite Hot, Hht in Hout.
  split; [exact Hht|]. split; [exact Hhost | exact Hout].
Defined.

Lemma fire_quiet_witness :
  (forall o, o ∈ [obs2; obs2] ->
     obj_callable o = true
     /\ (forall h : unit,
           snd (call_object quiet_interp o [a_string] h) = None)
     /\ leaves_channels quiet_interp o [a_string])
  /\ exists s' : state unit,
       Event_call quiet_interp 2 ch_on_load [a_string]
         (set_on_load (MkEvent [obs2; obs2]) (empty_state [] flat_fs))
       = Some (Ok tt, s')
       /\ stdout s' = [].
Proof.
  assert (Hall : forall o,
            o ∈ observers
                  (get_channel ch_on_load
                     (set_on_load (MkEvent [obs2; obs2])
                        (empty_state [] flat_fs))) ->
            obj_callable o = true
            /\ (forall h : unit,
                  snd (call_object quiet_interp o [a_string] h) = None)
            /\ leaves_channels quiet_interp o [a_string]).
  { intros o Hin. simpl in Hin.
    apply elem_of_cons in Hin as [->|Hin];
      [|apply list_elem_of_singleton in Hin as ->];
      repeat split; reflexivity. }
  split; [exact Hall|].
  exact (proj2 (fire_quiet quiet_interp ch_on_load [a_string]
                  (set_on_load (MkEvent [obs2; obs2])
                     (empty_state [] flat_fs)))
           Hall).
Defined.

Lemma fire_prints_tracebacks_witness :
  exists (s' : state (list pyobj)) (printed : list line),
    Event_call logging_interp 2 ch_on_new [] (logging_state [] [obs1; obs2])
    = Some (Ok tt, s')
    /\ stdout s' = [] ++ printed
    /\ length printed <= 2
    /\ Forall (fun l => exists e : exn, l = Traceback e) printed.
Proof.
  apply (proj2 (fire_prints_tracebacks logging_interp ch_on_new []
                  (logging_state [] [obs1; obs2]))).
  intros o Hin. apply logging_leaves. intros ->. simpl in Hin.
  repeat (apply elem_of_cons in Hin as [Hin|Hin]; [discriminate|]).
  apply elem_of_nil in Hin. exact Hin.
Defined.

Lemma fire_not_callable_witness :
  (forall o, o ∈ [a_string; a_string] -> obj_callable o = false)
  /\ exists s' : state unit,
       Event_call quiet_interp 2 ch_on_new []
         (set_on_new (MkEvent [a_string; a_string])
            (empty_state [] flat_fs)) = Some (Ok tt, s')
       /\ stdout s' = [Traceback TypeError; Traceback TypeError]
       /\ host s' = tt.
Proof.
  assert (Hall : forall o,
            o ∈ observers
                  (get_channel ch_on_new
                     (set_on_new (MkEvent [a_string; a_string])
                        (empty_state [] flat_fs))) ->
            obj_callable o = false).
  { intros o Hin. simpl in Hin.
    apply elem_of_cons in Hin as [->|Hin];
      [|apply list_elem_of_singleton in Hin as ->]; reflexivity. }
  split; [exact Hall|].
  exact (fire_not_callable quiet_interp ch_on_new []
           (set_on_new (MkEvent [a_string; a_string])
              (empty_state [] flat_fs)) Hall).
Defined.

(** ** More on the loader *)

Section MoreLoaderProperties.
Context {Host : Type} (W : interp Host).
Implicit Types (s t : state Host) (m : module).

(** X13: a load never drops or replaces what the cache holds: every
    module cached before is cached after, under the same name, whether
    the load succeeds or raises. *)
Theorem load_module_keeps_cache fullname s (k : string) (m0 : module) :
  sys_modules s !! k = Some m0 ->
  sys_modules (snd (load_module W fullname s)) !! k = Some m0.
Proof.
  intros Hk. destruct (sys_modules s !! fullname) as [m1|] eqn:Hc.
  - rewrite (load_module_cached W _ _ _ Hc). exact Hk.
  - destruct (load_module_touch W _ _ Hc) as (_ & Hkeep & _).
    apply Hkeep. exact Hk.
Qed.

(** X14: a load that raises leaves nothing under the name: when no
    location was found the cache and the identities handed out are as
    before; when the source raised, the cache holds what it held before
    and, beyond that, only new modules under names the source
    imported. *)
Theorem load_module_failure_uncached fullname s (e : exn) :
  fst (load_module W fullname s) = Raise e ->
  sys_modules (snd (load_module W fullname s)) !! fullname = None
  /\ (fn (fs s) (sys_path s) fullname = None ->
      sys_modules (snd (load_module W fullname s)) = sys_modules s
      /\ next_id (snd (load_module W fullname s)) = next_id s)
  /\ forall k m,
       sys_modules (snd (load_module W fullname s)) !! k = Some m ->
       sys_modules s !! k = Some m
       \/ (next_id s < mod_id m
           /\ exists f,
                fn (fs s) (sys_path s) fullname = Some f
                /\ k ∈ import_names (source_imports W fullname f (host s))).
Proof.
  intros Hraise.
  destruct (sys_modules s !! fullname) as [m1|] eqn:Hc.
  { rewrite (load_module_cached W _ _ _ Hc) in Hraise. discriminate. }
  destruct (load_module_touch W _ _ Hc) as (_ & _ & Hnew & Hres).
  rewrite Hraise in Hres. split; [exact Hres|]. split.
  - intros Hfn. rewrite (load_module_uncached W _ _ Hc), Hfn. auto.
  - intros k m Hk. destruct (Hnew k m Hk) as [Hold | (_ & _ & _ & Himp)];
      [left; exact Hold|].
    right. apply Himp. intros ->. congruence.
Qed.



(** X17: a load that follows a [find_module] that answered, with the
    files as they were, does not fail for want of a location: it returns
    a module of that name, or raises what running the source raised. *)
Theorem find_then_load fullname s :
  find_module fullname s = Some myloader ->
  sys_modules s !! fullname = None ->
  match fst (load_module W fullname s) with
  | Ok m => mod_name m = fullname
  | Raise e =>
      exists f : string,
        fn (fs s) (sys_path s) fullname = Some f
        /\ str_endswith f ".py" = true
        /\ snd (exec_source W fullname f (host s)) = inl e
  end.
Proof.
  intros Hfind Hc. apply find_module_iff in Hfind as [f Hfn].
  rewrite (load_module_uncached W _ _ Hc), Hfn. cbv zeta.
  destruct (str_endswith f ".py") eqn:Hext; [|reflexivity].
  unfold load_source. cbn [record host next_id].
  destruct (exec_source W fullname f (host s)) as [h [e|members]] eqn:Hrun;
    cbn [fst snd]; [|reflexivity].
  exists f. rewrite Hrun. auto.
Qed.

End MoreLoaderProperties.


Lemma load_module_keeps_cache_witness :
  sys_modules (snd (load_module site_interp "foo"
                      (snd (load_module site_interp "hello" site_state))))
    !! "hello" = Some (Module 1 "hello" None hello_members).
Proof.
  exact (load_module_keeps_cache site_interp "foo"
           (snd (load_module site_interp "hello" site_state)) "hello"
           (Module 1 "hello" None hello_members) eq_refl).
Defined.

(** The plugin [importer] imports [hello] and raises: [importer] is not
    cached, [hello] is. *)
Lemma load_module_failure_uncached_witness :
  fst (load_module nested_interp "importer" nested_state)
  = Raise (PluginError 4)
  /\ sys_modules (snd (load_module nested_interp "importer" nested_state))
       !! "importer" = None
  /\ sys_modules (snd (load_module nested_interp "importer" nested_state))
       !! "hello" = Some (Module 2 "hello" None hello_members).
Proof.
  split; [reflexivity|].
  destruct (load_module_failure_uncached nested_interp "importer"
              nested_state (PluginError 4) eq_refl) as (Hnone & _ & _).
  split; [exact Hnone | reflexivity].
Defined.



Lemma find_then_load_witness :
  exists f : string,
    fn site_fs ["/plugins"] "broken" = Some f
    /\ str_endswith f ".py" = true
    /\ snd (exec_source site_interp "broken" f tt) = inl SyntaxError.
Proof.
  exact (find_then_load site_interp "broken" site_state eq_refl eq_refl).
Defined.

(** ** More on the registrar *)

Lemma grows_refl {Host : Type} (s : state Host) : grows s s.
Proof. repeat split; reflexivity. Qed.

Lemma grows_trans {Host : Type} (s1 s2 s3 : state Host) :
  grows s1 s2 -> grows s2 s3 -> grows s1 s3.
Proof.
  intros (H1 & H2 & H3 & H4) (K1 & K2 & K3 & K4).
  repeat split; etransitivity; eassumption.
Qed.

Section MoreRegistrarProperties.
Context {Host : Type} (W : interp Host).
Implicit Types (s t : state Host) (item : string * pyvalue).

Section Steps.
Variable R : state Host -> state Host -> Prop.
Hypothesis R_refl : forall s, R s s.
Hypothesis R_trans : forall s1 s2 s3, R s1 s2 -> R s2 s3 -> R s1 s3.
Hypothesis R_host : forall (h : Host) s, R s (set_host h s).
Hypothesis R_on_load :
  forall (v : pyobj) s, R s (set_on_load (Event_iadd (on_load s) v) s).
Hypothesis R_on_new :
  forall (v : pyobj) s, R s (set_on_new (Event_iadd (on_new s) v) s).
Hypothesis R_command :
  forall (n : string) (g : glue) s, R s (add_command n g s).

Lemma instantiate_steps (v : pyvalue) s : R s (snd (instantiate W v s)).
Proof.
  destruct v as [meta c|]; [|apply R_refl].
  rewrite instantiate_run.
  destruct (construct W c (host s)) as [h [e|inst]]; apply R_host.
Qed.

Lemma add_on_load_steps (inst : pyobj) s :
  R s (snd (add W inst "on_load" s)).
Proof.
  rewrite add_on_load_run.
  destruct (lookup_attr W inst "on_load" (host s)) as [h [|e|v]];
    try apply R_host.
  destruct (obj_truthy v); [|apply R_host].
  eapply R_trans; [apply (R_host h)|]. apply (R_on_load v (set_host h s)).
Qed.

Lemma add_on_new_steps (inst : pyobj) s :
  R s (snd (add W inst "on_new" s)).
Proof.
  rewrite add_on_new_run.
  destruct (lookup_attr W inst "on_new" (host s)) as [h [|e|v]];
    try apply R_host.
  destruct (obj_truthy v); [|apply R_host].
  eapply R_trans; [apply (R_host h)|]. apply (R_on_new v (set_host h s)).
Qed.

Lemma sublime_register_steps (name : string) (g : glue) s :
  R s (snd (sublime_register W name g s)).
Proof.
  rewrite sublime_register_run.
  destruct (host_register W name g (host s)) as [h [e|]]; [apply R_host|].
  eapply R_trans; [apply (R_host h)|].
  apply (R_command name g (set_host h s)).
Qed.

Lemma wire_listener_steps (v : pyvalue) s :
  R s (snd (wire_listener W v s)).
Proof.
  unfold wire_listener, bind.
  pose proof (instantiate_steps v s) as H0.
  destruct (instantiate W v s) as [[inst|e] t]; simpl in H0; [|exact H0].
  pose proof (add_on_load_steps inst t) as H1.
  destruct (add W inst "on_load" t) as [[[]|e] t1]; simpl in H1.
  - eapply R_trans; [exact H0|]. eapply R_trans; [exact H1|].
    apply add_on_new_steps.
  - eapply R_trans; eassumption.
Qed.

(** Whatever holds of each elementary change of the state holds of the
    registration of a member. *)
Lemma register_item_steps item s : R s (snd (register_item W item s)).
Proof.
  destruct item as [name [meta c|]]; [|apply R_refl].
  rewrite register_item_classify.
  destruct (classify c) as [[]|];
    first [apply wire_listener_steps | apply sublime_register_steps
          | apply R_refl].
Qed.

End Steps.

(** Registering a member prints nothing by itself, and leaves the module
    cache and the journal alone. *)
Lemma register_item_quiet item s :
  stdout (snd (register_item W item s)) = stdout s
  /\ journal (snd (register_item W item s)) = journal s
  /\ sys_modules (snd (register_item W item s)) = sys_modules s.
Proof.
  apply (register_item_steps
           (fun s s' => stdout s' = stdout s /\ journal s' = journal s
                        /\ sys_modules s' = sys_modules s)); auto.
  intros s1 s2 s3 (-> & -> & ->) (-> & -> & ->). auto.
Qed.

Lemma register_item_grows item s :
  grows s (snd (register_item W item s)).
Proof.
  apply (register_item_steps grows);
    [apply grows_refl | apply grows_trans | ..];
    intros; unfold grows; simpl; repeat split;
    first [reflexivity | eexists; reflexivity].
Qed.

Lemma process_item_grows item s :
  grows s (snd (process_item W item s)).
Proof.
  rewrite process_item_run. simpl.
  destruct (decide (type_of (snd item) = type_)) as [Hty|Hty];
    [|apply grows_refl].
  pose proof (register_item_grows item s) as Hg.
  destruct (register_item W item s) as [[[]|e] t]; simpl in *; [exact Hg|].
  eapply grows_trans; [exact Hg|]. unfold report_skipped.
  destruct (str_raises W (snd item) e (host t)) as [h [e'|]];
    unfold grows; simpl; repeat split;
    first [reflexivity | eexists; reflexivity].
Qed.

(** X18: members that are not new-style classes (functions, values,
    modules, old-style classes, classes with a metaclass of their own)
    are passed over: nothing is registered, wired or printed for them. *)
Theorem process_items_skips_non_types (items : list (string * pyvalue)) s :
  Forall (fun item => type_of (snd item) <> type_) items ->
  process_items W items s = (Ok tt, s).
Proof.
  revert s. induction items as [|item rest IH]; intros s Hall;
    [reflexivity|].
  inversion Hall as [|? ? Hitem Hrest]; subst.
  rewrite process_items_unfold, process_item_run.
  rewrite decide_False by exact Hitem. apply IH. exact Hrest.
Qed.

(** X19: registration only adds: the commands registered before, the
    observers subscribed to either channel before and the lines printed
    before are all still there, in place, after the members of a module
    have been processed. *)
Theorem process_items_only_add (items : list (string * pyvalue)) s :
  grows s (snd (process_items W items s)).
Proof.
  revert s. induction items as [|item rest IH]; intros s.
  - apply grows_refl.
  - rewrite process_items_unfold.
    pose proof (process_item_grows item s) as Hg.
    destruct (process_item W item s) as [[[]|e] t]; cbn [fst snd] in *;
      [|exact Hg].
    eapply grows_trans; [exact Hg | apply IH].
Qed.

(** X20: what the loop over the members prints is one line for each
    member whose registration raised, naming a new-style class of the
    list and the exception; it prints no traceback. *)
Theorem process_items_prints_skips (items : list (string * pyvalue)) s :
  exists printed : list line,
    stdout (snd (process_items W items s)) = stdout s ++ printed
    /\ length printed <= length items
    /\ Forall (fun l =>
                 exists item (e : exn),
                   item ∈ items
                   /\ type_of (snd item) = type_
                   /\ l = SkippingRegistering (snd item) e) printed.
Proof.
  revert s. induction items as [|item rest IH]; intros s.
  - exists []. simpl. rewrite app_nil_r. auto.
  - rewrite process_items_unfold, process_item_run.
    assert (Hlift : forall printed,
              Forall (fun l => exists item' (e : exn),
                        item' ∈ rest /\ type_of (snd item') = type_
                        /\ l = SkippingRegistering (snd item') e) printed ->
              Forall (fun l => exists item' (e : exn),
                        item' ∈ item :: rest /\ type_of (snd item') = type_
                        /\ l = SkippingRegistering (snd item') e) printed).
    { intros printed HF. eapply Forall_impl; [exact HF|].
      intros l (item' & e & Hin & Hty & ->). exists item', e.
      repeat split; [right; exact Hin | exact Hty]. }
    destruct (decide (type_of (snd item) = type_)) as [Hty|Hty].
    + destruct (register_item_quiet item s) as (Hout & _).
      destruct (register_item W item s) as [[[]|e] t]; cbn [fst snd] in *.
      * destruct (IH t) as (l & -> & Hlen & Hall). exists l.
        rewrite Hout. simpl. split; [reflexivity|]. split; [lia | auto].
      * unfold report_skipped.
        destruct (str_raises W (snd item) e (host t)) as [h [e'|]].
        -- exists []. simpl. rewrite app_nil_r.
           split; [exact Hout|]. split; [lia | constructor].
        -- destruct (IH (print (SkippingRegistering (snd item) e)
                           (set_host h t))) as (l & -> & Hlen & Hall).
           exists (SkippingRegistering (snd item) e :: l). simpl.
           simpl in Hout. rewrite Hout, <- app_assoc.
           split; [reflexivity|]. split; [lia|].
           constructor; [|auto]. exists item, e.
           split; [left | split; [exact Hty | reflexivity]].
    + destruct (IH s) as (l & -> & Hlen & Hall). exists l. simpl.
      split; [reflexivity|]. split; [lia | auto].
Qed.

(** X21: a listener is wired hook by hook with no way back: when the
    instance is built, [on_load] is found and subscribed, and reading
    [on_new] then raises, the [on_load] hook stays subscribed while
    [on_new] and the commands are as before; the member is reported as
    skipped, by one line, when the class and the exception can be
    formatted, and otherwise nothing is printed for it and the member
    raises what the formatting raised. *)
Theorem listener_partial_wiring (name : string) (c : pyclass) s
    (h0 h1 h2 : Host) (inst v : pyobj) (e : exn) :
  EventListener ∈ cls_mro c ->
  construct W c (host s) = (h0, inr inst) ->
  lookup_attr W inst "on_load" h0 = (h1, AttrValue v) ->
  obj_truthy v = true ->
  lookup_attr W inst "on_new" h1 = (h2, AttrRaises e) ->
  let r := process_item W (name, VClass type_ c) s in
  observers (on_load (snd r)) = observers (on_load s) ++ [v]
  /\ on_new (snd r) = on_new s
  /\ commands (snd r) = commands s
  /\ match snd (str_raises W (VClass type_ c) e h2) with
     | None =>
         fst r = Ok tt
         /\ stdout (snd r)
            = stdout s ++ [SkippingRegistering (VClass type_ c) e]
     | Some e' => fst r = Raise e' /\ stdout (snd r) = stdout s
     end.
Proof.
  intros Hsub Hbuild Hload Htrue Hnew r. unfold r.
  rewrite process_item_run. simpl.
  rewrite register_item_classify, (classify_listener_wins _ Hsub).
  unfold wire_listener, bind. rewrite instantiate_run, Hbuild.
  rewrite add_on_load_run. simpl. rewrite Hload, Htrue.
  rewrite add_on_new_run. simpl. rewrite Hnew. simpl.
  unfold report_skipped. simpl.
  destruct (str_raises W (VClass type_ c) e h2) as [h3 [e'|]]; simpl; auto.
Qed.

(** X22: the classes of the taxonomy are members like any other: found in
    a plugin that imported them by name, each command base is registered
    as a command under the name it was found under, and [EventListener]
    goes through the listener branch. *)
Theorem base_classes_are_registered (name : string) s :
  register_item W (name, TextCommand_class) s =
    sublime_register W name (TextCommandGlue TextCommand_class) s
  /\ register_item W (name, WindowCommand_class) s =
     sublime_register W name (WindowCommandGlue WindowCommand_class) s
  /\ register_item W (name, ApplicationCommand_class) s =
     sublime_register W name
       (ApplicationCommandGlue ApplicationCommand_class) s
  /\ register_item W (name, EventListener_class) s =
     wire_listener W EventListener_class s
  /\ type_of TextCommand_class = type_of EventListener_class
  /\ type_of WindowCommand_class = type_of EventListener_class
  /\ type_of ApplicationCommand_class = type_of EventListener_class.
Proof.
  unfold TextCommand_class, WindowCommand_class, ApplicationCommand_class,
    EventListener_class.
  rewrite !register_item_classify. repeat split; reflexivity.
Qed.

Lemma process_items_quiet (items : list (string * pyvalue)) s :
  journal (snd (process_items W items s)) = journal s
  /\ sys_modules (snd (process_items W items s)) = sys_modules s.
Proof.
  revert s. induction items as [|item rest IH]; intros s; [auto|].
  rewrite process_items_unfold, process_item_run.
  destruct (decide (type_of (snd item) = type_)) as [Hty|Hty]; [|apply IH].
  destruct (register_item_quiet item s) as (_ & Hj & Hm).
  destruct (register_item W item s) as [[[]|e] t]; cbn [fst snd] in *.
  - destruct (IH t) as [-> ->]. auto.
  - unfold report_skipped.
    destruct (str_raises W (snd item) e (host t)) as [h [e'|]].
    + simpl. auto.
    + destruct (IH (print (SkippingRegistering (snd item) e)
                      (set_host h t))) as [-> ->].
      simpl. auto.
Qed.

(** X23: with the hook of this file as the import, loading a name that
    resolves to a bare path (a package directory) caches a namespace
    module for it and prints the loading line; nothing is registered and
    nothing is wired, the module having no class in it. *)
Theorem reload_plugin_namespace (name f : string) s :
  (forall n t, import_module W n t = hook_import W n t) ->
  sys_modules s !! name = None ->
  fn (fs s) (sys_path s) name = Some f ->
  str_endswith f ".py" = false ->
  reload_plugin W name s =
  (Ok tt,
   cache_module name (new_module (next_id s) name f)
     (record (Resolve name) (print (LoadingPlugin name) s))).
Proof.
  intros Himport Hc Hfn Hext.
  unfold reload_plugin, bind, modify, try_except. simpl.
  rewrite load_and_register_run, Himport, hook_import_run by exact Hc.
  simpl. rewrite Hfn. unfold load_module. simpl. rewrite Hc, Hfn, Hext.
  reflexivity.
Qed.

(** X24: with the hook of this file as the import, loading a plugin that
    is already cached does not load it again: nothing is resolved, no
    source is run and the cache stays as it is; the members of the
    cached module are processed once more, and the traceback is printed
    when that loop is left by an exception. *)
Theorem reload_plugin_cached (name : string) (m : module) s :
  (forall n t, import_module W n t = hook_import W n t) ->
  sys_modules s !! name = Some m ->
  reload_plugin W name s =
  (Ok tt, after_outer (process_items W (mod_members m)
                         (print (LoadingPlugin name) s)))
  /\ journal (snd (reload_plugin W name s)) = journal s
  /\ sys_modules (snd (reload_plugin W name s)) = sys_modules s.
Proof.
  intros Himport Hc.
  assert (Hrun : reload_plugin W name s =
                 (Ok tt, after_outer (process_items W (mod_members m)
                                        (print (LoadingPlugin name) s)))).
  { unfold reload_plugin, bind, modify, try_except. simpl.
    rewrite load_and_register_run, Himport. unfold hook_import. simpl.
    rewrite Hc. unfold getmembers.
    destruct (process_items W (mod_members m)
                (print (LoadingPlugin name) s)) as [[[]|e] u]; reflexivity. }
  rewrite Hrun. cbn [snd].
  destruct (process_items_quiet (mod_members m)
              (print (LoadingPlugin name) s)) as [Hj Hm].
  destruct (process_items W (mod_members m)
              (print (LoadingPlugin name) s)) as [[[]|e] u];
    simpl in *; auto.
Qed.

(** X25: a member whose registration raises does not end the loop when
    the report of it can be made: with the members before it processed,
    the line for it is printed and the members after it are processed
    from there. *)
Theorem process_items_continue (pre post : list (string * pyvalue)) item s
    (e : exn) :
  fst (process_items W pre s) = Ok tt ->
  type_of (snd item) = type_ ->
  fst (register_item W item (snd (process_items W pre s))) = Raise e ->
  snd (str_raises W (snd item) e
         (host (snd (register_item W item (snd (process_items W pre s))))))
  = None ->
  process_items W (pre ++ item :: post) s =
  process_items W post
    (print (SkippingRegistering (snd item) e)
       (set_host
          (fst (str_raises W (snd item) e
                  (host (snd (register_item W item
                                (snd (process_items W pre s)))))))
          (snd (register_item W item (snd (process_items W pre s)))))).
Proof. apply process_items_go_on. Qed.

End MoreRegistrarProperties.

Lemma process_items_skips_non_types_witness :
  Forall (fun item : string * pyvalue => type_of (snd item) <> type_)
    [("OldStyle", OldStyle_class); ("__name__", VOther)]
  /\ process_items site_interp
       [("OldStyle", OldStyle_class); ("__name__", VOther)] site_state =
     (Ok tt, site_state).
Proof.
  assert (Hall : Forall (fun item : string * pyvalue =>
                           type_of (snd item) <> type_)
                   [("OldStyle", OldStyle_class); ("__name__", VOther)])
    by (repeat constructor; discriminate).
  split; [exact Hall|].
  exact (process_items_skips_non_types site_interp _ site_state Hall).
Defined.

Lemma listener_partial_wiring_witness :
  let r := process_item flaky_interp ("Flaky", Flaky_class) site_state in
  observers (on_load (snd r)) = [on_load_method]
  /\ on_new (snd r) = Event_init
  /\ commands (snd r) = []
  /\ fst r = Ok tt
  /\ stdout (snd r) = [SkippingRegistering Flaky_class (PluginError 9)].
Proof.
  assert (Hsub : EventListener ∈ [UserClass 9; EventListener; object_])
    by (apply (bool_decide_unpack _); reflexivity).
  exact (listener_partial_wiring flaky_interp "Flaky"
           (PyClass (UserClass 9) [UserClass 9; EventListener; object_])
           site_state tt tt tt (PyObj 109 true false) on_load_method
           (PluginError 9) Hsub eq_refl eq_refl eq_refl eq_refl).
Defined.

Lemma reload_plugin_namespace_witness :
  reload_plugin site_interp "foo" site_state =
  (Ok tt,
   cache_module "foo" (new_module 1 "foo" "/plugins/foo")
     (record (Resolve "foo") (print (LoadingPlugin "foo") site_state))).
Proof.
  exact (reload_plugin_namespace site_interp "foo" "/plugins/foo" site_state
           (fun _ _ => eq_refl) eq_refl eq_refl eq_refl).
Defined.

(** Loading [hello] a second time runs nothing and registers everything
    again: the commands are in the table twice, and the hook of the
    listener is subscribed twice. *)
Lemma reload_plugin_cached_witness :
  let s1 := snd (reload_plugin site_interp "hello" site_state) in
  let s2 := snd (reload_plugin site_interp "hello" s1) in
  journal s2 = journal s1
  /\ sys_modules s2 = sys_modules s1
  /\ observers (on_new s2) = [on_new_method; on_new_method]
  /\ length (commands s2) = 6.
Proof.
  intros s1 s2.
  destruct (reload_plugin_cached site_interp "hello"
              (Module 1 "hello" None hello_members) s1
              (fun _ _ => eq_refl) eq_refl) as (_ & Hj & Hm).
  split; [exact Hj|]. split; [exact Hm|]. split; reflexivity.
Defined.

(** In [hello], [Failing] comes after [App] and before [Hello]: it is
    reported, and the loop goes on with [Hello] and the members after
    it. *)
Lemma process_items_continue_witness :
  process_items site_interp hello_members site_state =
  process_items site_interp
    [("Hello", Hello_class); ("OldStyle", OldStyle_class);
     ("OnNewOnly", OnNewOnly_class); ("Win", Win_class);
     ("__name__", VOther)]
    (print (SkippingRegistering Failing_class (PluginError 2))
       (snd (register_item site_interp ("Failing", Failing_class)
               (snd (process_items site_interp [("App", App_class)]
                       site_state))))).
Proof.
  exact (process_items_continue site_interp [("App", App_class)]
           [("Hello", Hello_class); ("OldStyle", OldStyle_class);
            ("OnNewOnly", OnNewOnly_class); ("Win", Win_class);
            ("__name__", VOther)]
           ("Failing", Failing_class) site_state (PluginError 2)
           eq_refl eq_refl eq_refl eq_refl).
Defined.
